(** * e621dl: the synchronisation pipeline of [e621dl.py] and [lib/api.py]

    A shallow embedding of the update script ([src/e621dl.py]) and of the
    remote API helpers ([src/lib/api.py], imported by the script as
    [e621_api]), followed by the properties of the pipeline: tag-group
    expansion, paginated accumulation, the filter chain, the approval step,
    the batch of downloads and the wrap-up.

    Python values are embedded as follows.
    - [str] is [string]; [str.split()] is [Py.split]; [set(..) & set(..)] is
      an intersection of [gset string].
    - exceptions are the type [exn]; a computation that can raise returns a
      [result] when it is pure and an [outcome] when it runs in the script,
      and the [outcome] carries the globals at the point it stopped. Nothing
      in the two source files catches an exception.
    - a [while] loop takes one unit of fuel per turn; [NoFuel] is the outcome
      of a loop that outlives its fuel.
    - the module-level variables of [e621dl.py] ([CONFIG], [CACHE],
      [ALIASED_BLACKLIST], [URL_AND_NAME_LIST]) together with the file system
      and the list of observable events form the record [Globals].
    - everything the script takes from modules that are not part of the
      sources at hand ([lib.support], [lib.default], [lib.downloader]) and
      from the outside world (network, JSON decoder, clock) is a field of
      the record [Host], except the cache class and [multi_download], which
      are modelled from the spec.
    - calls of the logger change none of this and are left out. *)

From Stdlib Require Import ZArith Ascii String List Bool Lia DecimalString.
From stdpp Require Import base decidable option list gmap strings.

Local Open Scope string_scope.
Local Open Scope list_scope.

Set Warnings "-register-all".

(* ===================================================================== *)
(** ** Python strings *)
(* ===================================================================== *)

Module Py.

(** The characters [str.split()] treats as separators: space, [\t], [\n],
    [\v], [\f] and [\r]. *)
Definition isspace (c : ascii) : bool :=
  let n := nat_of_ascii c in
  Nat.eqb n 32 || (Nat.leb 9 n && Nat.leb n 13).

(** [split_go tok s]: [tok] is the token read so far. *)
Fixpoint split_go (tok : string) (s : string) : list string :=
  match s with
  | EmptyString => if String.eqb tok "" then [] else [tok]
  | String c s' =>
      if isspace c
      then (if String.eqb tok "" then split_go "" s' else tok :: split_go "" s')
      else split_go (tok ++ String c "") s'
  end.

(** [s.split()]: the maximal runs of non-space characters, in order. *)
Definition split (s : string) : list string := split_go "" s.

(** No character of [s] is a separator. *)
Fixpoint no_space (s : string) : bool :=
  match s with
  | EmptyString => true
  | String c s' => negb (isspace c) && no_space s'
  end.

(** A token: non-empty and free of separators. *)
Definition is_token (t : string) : Prop := t <> "" /\ no_space t = true.

(** [str(n)] for an integer. *)
Definition str_int (n : Z) : string := NilZero.string_of_int (Z.to_int n).

(** ['%s %s %s %s %s' % (a, b, c, d, e)] *)
Definition format5 (a b c d e : string) : string :=
  a ++ " " ++ b ++ " " ++ c ++ " " ++ d ++ " " ++ e.

(** [set(xs) & set(ys)] *)
Definition set_and (xs ys : list string) : gset string :=
  list_to_set xs ∩ list_to_set ys.

(** [list(s) == []] *)
Definition is_empty_list (s : gset string) : bool := bool_decide (elements s = []).

End Py.

(* ===================================================================== *)
(** ** Exceptions and outcomes *)
(* ===================================================================== *)

Inductive exn : Type :=
  | IOError (url : string)       (* the transport failed *)
  | ValueError                   (* malformed JSON, date out of range *)
  | KeyError (key : string)      (* d[key] on a dict without that key *)
  | TypeError                    (* subscripting or iterating a wrong value *)
  | IndexError                   (* l[0] on an empty list *)
  | AttributeError (attr : string). (* x.attr on an object without it *)

(** A pure computation that may raise. *)
Inductive result (A : Type) : Type :=
  | Ok (a : A)
  | Err (e : exn).
Arguments Ok {A} a.
Arguments Err {A} e.

Definition rbind {A B} (r : result A) (k : A -> result B) : result B :=
  match r with Ok a => k a | Err e => Err e end.

Fixpoint rmapM {A B} (f : A -> result B) (l : list A) : result (list B) :=
  match l with
  | [] => Ok []
  | x :: l' => rbind (f x) (fun y => rbind (rmapM f l') (fun ys => Ok (y :: ys)))
  end.

(* ===================================================================== *)
(** ** JSON values, as [json.loads] returns them *)
(* ===================================================================== *)

Inductive json : Type :=
  | JNull
  | JBool (b : bool)
  | JNum (n : Z)
  | JStr (s : string)
  | JArr (l : list json)
  | JObj (kvs : list (string * json)).

Module Json.

Fixpoint assoc (key : string) (kvs : list (string * json)) : option json :=
  match kvs with
  | [] => None
  | (k, v) :: kvs' => if String.eqb k key then Some v else assoc key kvs'
  end.

(** [j[key]] with a string key. *)
Definition getitem (j : json) (key : string) : result json :=
  match j with
  | JObj kvs => match assoc key kvs with Some v => Ok v | None => Err (KeyError key) end
  | _ => Err TypeError
  end.

(** [for x in j]: the elements of an array, the keys of an object, the
    characters of a string; other values are not iterable. *)
Definition iter (j : json) : result (list json) :=
  match j with
  | JArr l => Ok l
  | JObj kvs => Ok (map (fun kv => JStr (fst kv)) kvs)
  | JStr s => Ok (map (fun c => JStr (String c "")) (list_ascii_of_string s))
  | _ => Err TypeError
  end.

(** The remote schema fixes the type of every field the script reads (see
    [Post] below); a response outside the schema raises [TypeError] where
    the field is read. *)
Definition as_str (j : json) : result string :=
  match j with JStr s => Ok s | _ => Err TypeError end.

Definition as_int (j : json) : result Z :=
  match j with JNum n => Ok n | _ => Err TypeError end.

End Json.

(* ===================================================================== *)
(** ** The records of [lib/api.py] *)
(* ===================================================================== *)

(** [Post = namedtuple('Post', 'url id md5 ext tags')]. The fields have the
    types of the remote schema: [file_url], [md5], [file_ext] and [tags] are
    strings, [id] is a number. *)
Record Post : Type := mkPost {
  url : string;
  id : Z;
  md5 : string;
  ext : string;
  tags : string
}.

(** [UserTag = namedtuple('UserTag', 'aliasz_id name')] *)
Record UserTag : Type := mkUserTag {
  aliasz_id : Z;
  name : string
}.

(** [u.attr] on a [UserTag]: a namedtuple has exactly the attributes its
    declaration lists. *)
Definition UserTag_getattr (u : UserTag) (attr : string) : result json :=
  if String.eqb attr "aliasz_id" then Ok (JNum (aliasz_id u))
  else if String.eqb attr "name" then Ok (JStr (name u))
  else Err (AttributeError attr).

(** [AliasedTag = namedtuple('AliasedTag', 'name')] *)
Record AliasedTag : Type := mkAliasedTag {
  aliased_name : string
}.

(* ===================================================================== *)
(** ** The dedup cache *)
(* ===================================================================== *)

(** Modelled from the spec: the class of [CACHE] (built by
    [support.get_cache(name, size)]) is not among the sources. The spec
    describes it as an ordered set of fingerprints with a fixed capacity
    [C], [size <= C] always, where inserting a new fingerprint at capacity
    evicts the oldest surviving entry (FIFO by insertion order); membership
    test and insertion are its only operations. *)
Record FixedFifo : Type := mkFifo {
  capacity : nat;
  entries : list string          (* oldest first *)
}.

Module Fifo.

(** Modelled from the spec: [x in cache], the membership test. *)
Definition contains (x : string) (c : FixedFifo) : bool :=
  bool_decide (x ∈ entries c).

(** Modelled from the spec: [cache.push(x)]. The cache is a set, so a
    fingerprint already present stays where it is; a new one goes last and
    the oldest entries beyond the capacity are dropped. *)
Definition push (x : string) (c : FixedFifo) : FixedFifo :=
  if contains x c then c
  else
    let l := entries c ++ [x] in
    mkFifo (capacity c) (drop (length l - capacity c) l).

End Fifo.

(* ===================================================================== *)
(** ** Configuration, host and globals *)
(* ===================================================================== *)

(** The keys of the [CONFIG] dict the script reads or writes. *)
Record Config : Type := mkConfig {
  download_directory : string;
  last_run : string;
  parallel_downloads : Z;
  cache_name : string;
  cache_size : nat
}.

Definition set_last_run (s : string) (c : Config) : Config :=
  mkConfig (download_directory c) s (parallel_downloads c) (cache_name c) (cache_size c).

(** What the script takes from outside its own two source files. *)
Record Host : Type := mkHost {
  (** [SpoofOpen().open(url).read()]: the body, or a transport failure *)
  open_read : string -> result string;
  (** [json.loads] *)
  loads : string -> result json;
  (** [support.safe_filename(line, item, CONFIG)] *)
  safe_filename : string -> Post -> Config -> string;
  (** [default.MAX_RESULTS] *)
  MAX_RESULTS : nat;
  (** [date.today().toordinal()] *)
  today : Z;
  (** [d.strftime(default.DATETIME_FMT)], on the ordinal of [d] *)
  strftime : Z -> string
}.

(** What an observer of a run can see, in the order it happens. *)
Inductive Event : Type :=
  | EvOpen (request : string)                       (* a request is sent *)
  | EvPush (fingerprint : string)                   (* [CACHE.push] *)
  | EvMultiDownload (tasks : list (string * string)) (parallel : Z)
  | EvDump (cfg : Config).                          (* [json.dump(CONFIG, ...)] *)

Record Globals : Type := mkGlobals {
  CONFIG : Config;
  CACHE : FixedFifo;
  ALIASED_BLACKLIST : list string;
  URL_AND_NAME_LIST : list (string * string);
  (** the paths [os.path.isfile] answers [True] for *)
  files : gset string;
  (** the content of [config.txt] once the script has written it *)
  config_txt : option Config;
  trace : list Event
}.

Definition set_CONFIG (c : Config) (g : Globals) : Globals :=
  mkGlobals c (CACHE g) (ALIASED_BLACKLIST g) (URL_AND_NAME_LIST g) (files g)
            (config_txt g) (trace g).
Definition set_CACHE (c : FixedFifo) (g : Globals) : Globals :=
  mkGlobals (CONFIG g) c (ALIASED_BLACKLIST g) (URL_AND_NAME_LIST g) (files g)
            (config_txt g) (trace g).
Definition set_ALIASED_BLACKLIST (l : list string) (g : Globals) : Globals :=
  mkGlobals (CONFIG g) (CACHE g) l (URL_AND_NAME_LIST g) (files g)
            (config_txt g) (trace g).
Definition set_URL_AND_NAME_LIST (l : list (string * string)) (g : Globals) : Globals :=
  mkGlobals (CONFIG g) (CACHE g) (ALIASED_BLACKLIST g) l (files g)
            (config_txt g) (trace g).
Definition set_files (f : gset string) (g : Globals) : Globals :=
  mkGlobals (CONFIG g) (CACHE g) (ALIASED_BLACKLIST g) (URL_AND_NAME_LIST g) f
            (config_txt g) (trace g).
Definition set_config_txt (c : option Config) (g : Globals) : Globals :=
  mkGlobals (CONFIG g) (CACHE g) (ALIASED_BLACKLIST g) (URL_AND_NAME_LIST g) (files g)
            c (trace g).
Definition set_trace (t : list Event) (g : Globals) : Globals :=
  mkGlobals (CONFIG g) (CACHE g) (ALIASED_BLACKLIST g) (URL_AND_NAME_LIST g) (files g)
            (config_txt g) t.

(* ===================================================================== *)
(** ** The monad of the script: globals, exceptions, fuel *)
(* ===================================================================== *)

Inductive outcome (A : Type) : Type :=
  | Done (a : A) (g : Globals)        (* returned [a] *)
  | Raised (e : exn) (g : Globals)    (* an exception left the computation *)
  | NoFuel (g : Globals).             (* a [while] loop outlived its fuel *)
Arguments Done {A} a g.
Arguments Raised {A} e g.
Arguments NoFuel {A} g.

Definition M (A : Type) : Type := Globals -> outcome A.

Definition ret {A} (a : A) : M A := fun g => Done a g.

Definition bind {A B} (m : M A) (k : A -> M B) : M B :=
  fun g => match m g with
           | Done a g' => k a g'
           | Raised e g' => Raised e g'
           | NoFuel g' => NoFuel g'
           end.

Definition raise {A} (e : exn) : M A := fun g => Raised e g.
Definition no_fuel {A} : M A := fun g => NoFuel g.
Definition get : M Globals := fun g => Done g g.
Definition modify (f : Globals -> Globals) : M unit := fun g => Done tt (f g).
Definition emit (ev : Event) : M unit := modify (fun g => set_trace (trace g ++ [ev]) g).

(** A pure computation that may raise, run inside the script. *)
Definition lift {A} (r : result A) : M A :=
  match r with Ok a => ret a | Err e => raise e end.

Declare Scope script_scope.
Delimit Scope script_scope with script.
Notation "x <- m ;; k" := (bind m (fun x => k))
  (at level 100, m at next level, right associativity) : script_scope.
Notation "m ;;; k" := (bind m (fun _ => k))
  (at level 100, right associativity) : script_scope.
Local Open Scope script_scope.

(** [for x in l: acc = f(acc, x)] *)
Fixpoint for_each {A B} (f : B -> A -> M B) (l : list A) (acc : B) : M B :=
  match l with
  | [] => ret acc
  | x :: l' => acc' <- f acc x ;; for_each f l' acc'
  end.

(** [ys = []; for x in l: ys.append(f(x))] *)
Fixpoint map_each {A B} (f : A -> M B) (l : list A) : M (list B) :=
  match l with
  | [] => ret []
  | x :: l' => y <- f x ;; ys <- map_each f l' ;; ret (y :: ys)
  end.

(* ===================================================================== *)
(** ** [lib/api.py] *)
(* ===================================================================== *)

Section Api.

Context (h : Host).

(** [SpoofOpen().open(request).read()] *)
Definition spoof_open_read (request : string) : M string :=
  emit (EvOpen request) ;;;
  lift (open_read h request).

Definition post_request (search_string uploaded_after : string)
    (page_number max_results : nat) : string :=
  "https://e621.net/post/index.json?" ++
  "tags=" ++ search_string ++
  " date:>" ++ uploaded_after ++
  "&page=" ++ Py.str_int (Z.of_nat page_number) ++
  "&limit=" ++ Py.str_int (Z.of_nat max_results).

(** [Post(post['file_url'], post['id'], post['md5'], post['file_ext'],
    post['tags'])] *)
Definition post_of_json (post : json) : result Post :=
  rbind (rbind (Json.getitem post "file_url") Json.as_str) (fun file_url =>
  rbind (rbind (Json.getitem post "id") Json.as_int) (fun id =>
  rbind (rbind (Json.getitem post "md5") Json.as_str) (fun md5 =>
  rbind (rbind (Json.getitem post "file_ext") Json.as_str) (fun file_ext =>
  rbind (rbind (Json.getitem post "tags") Json.as_str) (fun tags =>
  Ok (mkPost file_url id md5 file_ext tags)))))).

Definition get_posts (search_string uploaded_after : string)
    (page_number max_results : nat) : M (list Post) :=
  let request := post_request search_string uploaded_after page_number max_results in
  body <- spoof_open_read request ;;
  results <- lift (loads h body) ;;
  items <- lift (Json.iter results) ;;
  lift (rmapM post_of_json items).

(** [open(filename, 'wb')] creates the file before the body is fetched; the
    bytes written are not part of the model. *)
Definition download_post (url filename : string) : M unit :=
  modify (fun g => set_files ({[filename]} ∪ files g) g) ;;;
  body <- spoof_open_read url ;;
  ret tt.

(** [UserTag(user_tag['alias_id'], user_tag['name'])] *)
Definition user_tag_of_json (user_tag : json) : result UserTag :=
  rbind (rbind (Json.getitem user_tag "alias_id") Json.as_int) (fun alias_id =>
  rbind (rbind (Json.getitem user_tag "name") Json.as_str) (fun name =>
  Ok (mkUserTag alias_id name))).

(** [AliasedTag(aliased_tag['name'])] *)
Definition aliased_tag_of_json (aliased_tag : json) : result AliasedTag :=
  rbind (rbind (Json.getitem aliased_tag "name") Json.as_str) (fun name =>
  Ok (mkAliasedTag name)).

Definition alias_request (tag : string) : string :=
  "https://e621.net/tag_alias/index.json?query=" ++ tag.

Definition official_request (alias_id : Z) : string :=
  "https://e621.net/tag/show.json?id=" ++ Py.str_int alias_id.

Definition get_alias (tag : string) : M string :=
  let request := alias_request tag in
  body <- spoof_open_read request ;;
  results <- lift (loads h body) ;;
  items <- lift (Json.iter results) ;;
  user_tags <- lift (rmapM user_tag_of_json items) ;;
  match user_tags with
  | [] =>
      (* 'The tag ... does not exist, please remove it ...' *)
      ret ""
  | user_tags_0 :: _ =>
      name_0 <- lift (rbind (UserTag_getattr user_tags_0 "name") Json.as_str) ;;
      if String.eqb tag name_0 then
        alias_id <- lift (rbind (UserTag_getattr user_tags_0 "alias_id") Json.as_int) ;;
        let request := official_request alias_id in
        body <- spoof_open_read request ;;
        results <- lift (loads h ("[" ++ body ++ "]")) ;;
        items <- lift (Json.iter results) ;;
        aliased_tags <- lift (rmapM aliased_tag_of_json items) ;;
        match aliased_tags with
        | [] => raise IndexError
        | aliased_tags_0 :: _ => ret (aliased_name aliased_tags_0)
        end
      else ret tag
  end.

End Api.

(* ===================================================================== *)
(** ** [lib.downloader] and the clock *)
(* ===================================================================== *)

Section Downloader.

Context (h : Host).

(** One task of the batch: a failure is reported for that task alone and
    the batch goes on from the state the task left. *)
Definition download_contained (task : string * string) : M unit :=
  fun g => match download_post h (fst task) (snd task) g with
           | Done _ g' => Done tt g'
           | Raised _ g' => Done tt g'
           | NoFuel g' => NoFuel g'
           end.

(** Modelled from the spec: [lib.downloader.multi_download] is not among
    the sources. The spec has it run every task of the batch, each one
    fetching [url] and writing the body to [destinationPath]; a failed task
    is reported individually, is not retried and does not abort its
    siblings, and the whole batch is awaited. The tasks are run here in list
    order, the spec gives no order between them. *)
Definition multi_download (tasks : list (string * string)) (parallel : Z) : M unit :=
  emit (EvMultiDownload tasks parallel) ;;;
  for_each (fun _ task => download_contained task) tasks tt.

End Downloader.

Module Date.

(** [date.max.toordinal()] *)
Definition max_ordinal : Z := 3652059.

(** [datetime.date.fromordinal(n)], the date kept as its ordinal. *)
Definition fromordinal (n : Z) : result Z :=
  if (1 <=? n)%Z && (n <=? max_ordinal)%Z then Ok n else Err ValueError.

End Date.

(* ===================================================================== *)
(** ** [e621dl.py] *)
(* ===================================================================== *)

(** The five counters of one tag line, as the summary line reports them. *)
Record Counters : Type := mkCounters {
  links_missing_tags : nat;
  links_blacklisted : nat;
  links_in_cache : nat;
  links_on_disk : nat;
  will_download : nat
}.

Definition zero_counters : Counters := mkCounters 0 0 0 0 0.

(** The branch of the [if]/[elif] chain an item takes. *)
Inductive Disposition : Type :=
  | MissingRequiredTag     (* 'skipped (missing a requested tag)' *)
  | Blacklisted            (* 'skipped (contains a blacklisted tag)' *)
  | AlreadyOnDisk          (* 'skipped (already in download directory)' *)
  | AlreadyCached          (* 'skipped (previously downloaded)' *)
  | Approved.              (* 'will be downloaded' *)

(** What one tag line leaves behind: the candidates found and the counters. *)
Record Summary : Type := mkSummary {
  potential_downloads : list Post;
  counters : Counters
}.

Section Script.

Context (h : Host).

(** [os.path.isfile(path)] *)
Definition isfile (g : Globals) (path : string) : bool :=
  bool_decide (path ∈ files g).

(** Lines 102-113: [all_tags], [search_tags] and [extra_tags] of a line.
    The indices 0..4 are in range under the guard; [nth] needs a default. *)
Definition expand_line (line : string) : M (list string * string * list string) :=
  let all_tags := Py.split line in
  if (5 <? length all_tags)%nat then
    let search_tags :=
      Py.format5 (nth 0 all_tags "") (nth 1 all_tags "") (nth 2 all_tags "")
                 (nth 3 all_tags "") (nth 4 all_tags "") in
    extra_tags <-
      for_each (fun extra_tags tag =>
                  if bool_decide (tag ∈ Py.split search_tags) then ret extra_tags
                  else alias <- get_alias h tag ;; ret (extra_tags ++ [alias]))
               all_tags [] ;;
    ret (all_tags, search_tags, extra_tags)
  else
    ret (all_tags, line, []).

(** Lines 115-127: one unit of fuel per turn of the [while] loop. *)
Fixpoint accumulate (fuel : nat) (search_tags : string) (current_page : nat)
    (potential_downloads : list Post) : M (list Post) :=
  match fuel with
  | O => no_fuel
  | S fuel' =>
      g <- get ;;
      links_found <- get_posts h search_tags (last_run (CONFIG g))
                               current_page (MAX_RESULTS h) ;;
      match links_found with
      | [] => ret potential_downloads
      | _ :: _ =>
          let potential_downloads := potential_downloads ++ links_found in
          if (length links_found =? MAX_RESULTS h)%nat
          then accumulate fuel' search_tags (current_page + 1) potential_downloads
          else ret potential_downloads
      end
  end.

(** Lines 139-166: the conditions of the chain, in the order of the source. *)
Definition decide_item (g : Globals) (line : string) (all_tags extra_tags : list string)
    (item : Post) : Disposition :=
  let filename := safe_filename h line item (CONFIG g) in
  let currentTags := Py.split (tags item) in
  if (5 <? length all_tags)%nat && Py.is_empty_list (Py.set_and extra_tags currentTags)
  then MissingRequiredTag
  else if negb (Py.is_empty_list (Py.set_and (ALIASED_BLACKLIST g) currentTags))
  then Blacklisted
  else if isfile g (download_directory (CONFIG g) ++ filename)
  then AlreadyOnDisk
  else if Fifo.contains (md5 item) (CACHE g)
  then AlreadyCached
  else Approved.

(** Lines 146-173: the body of the branch taken. *)
Definition filter_item (line : string) (all_tags extra_tags : list string)
    (c : Counters) (item : Post) : M Counters :=
  g <- get ;;
  match decide_item g line all_tags extra_tags item with
  | MissingRequiredTag =>
      ret (mkCounters (links_missing_tags c + 1) (links_blacklisted c)
                      (links_in_cache c) (links_on_disk c) (will_download c))
  | Blacklisted =>
      ret (mkCounters (links_missing_tags c) (links_blacklisted c + 1)
                      (links_in_cache c) (links_on_disk c) (will_download c))
  | AlreadyOnDisk =>
      ret (mkCounters (links_missing_tags c) (links_blacklisted c)
                      (links_in_cache c) (links_on_disk c + 1) (will_download c))
  | AlreadyCached =>
      ret (mkCounters (links_missing_tags c) (links_blacklisted c)
                      (links_in_cache c + 1) (links_on_disk c) (will_download c))
  | Approved =>
      let filename := safe_filename h line item (CONFIG g) in
      modify (fun g => set_URL_AND_NAME_LIST
                (URL_AND_NAME_LIST g ++
                 [(url item, (download_directory (CONFIG g) ++ filename)%string)])
                g) ;;;
      modify (fun g => set_CACHE (Fifo.push (md5 item) (CACHE g)) g) ;;;
      emit (EvPush (md5 item)) ;;;
      ret (mkCounters (links_missing_tags c) (links_blacklisted c)
                      (links_in_cache c) (links_on_disk c) (will_download c + 1))
  end.

(** Lines 88-179: the body of [for line in TAGS]. *)
Definition update_line (fuel : nat) (line : string) : M Summary :=
  expanded <- expand_line line ;;
  let '(all_tags, search_tags, extra_tags) := expanded in
  potential_downloads <- accumulate fuel search_tags 1 [] ;;
  if (0 <? length potential_downloads)%nat then
    c <- for_each (filter_item line all_tags extra_tags) potential_downloads zero_counters ;;
    ret (mkSummary potential_downloads c)
  else
    ret (mkSummary potential_downloads zero_counters).

(** Lines 72-75 *)
Definition alias_blacklist (BLACKLIST : list string) : M unit :=
  modify (set_ALIASED_BLACKLIST []) ;;;
  for_each (fun _ tag =>
              alias <- get_alias h tag ;;
              modify (fun g => set_ALIASED_BLACKLIST (ALIASED_BLACKLIST g ++ [alias]) g))
           BLACKLIST tt.

(** Lines 86-179 *)
Definition update (fuel : nat) (TAGS : list string) : M (list Summary) :=
  modify (set_URL_AND_NAME_LIST []) ;;;
  map_each (update_line fuel) TAGS.

(** Lines 181-185 *)
Definition download (_ : unit) : M unit :=
  g <- get ;;
  match URL_AND_NAME_LIST g with
  | [] => ret tt
  | _ :: _ => multi_download h (URL_AND_NAME_LIST g) (parallel_downloads (CONFIG g))
  end.

(** Lines 198-206 *)
Definition wrap_up (_ : unit) : M unit :=
  YESTERDAY <- lift (Date.fromordinal (today h - 1)) ;;
  modify (fun g => set_CONFIG (set_last_run (strftime h YESTERDAY) (CONFIG g)) g) ;;;
  g <- get ;;
  modify (set_config_txt (Some (CONFIG g))) ;;;
  emit (EvDump (CONFIG g)).

(** The script from line 72 on: initialization (lines 27-70) has loaded
    [CONFIG], [TAGS], [BLACKLIST] and [CACHE] and has not terminated early. *)
Definition main (fuel : nat) (TAGS BLACKLIST : list string) : M (list Summary) :=
  alias_blacklist BLACKLIST ;;;
  summaries <- update fuel TAGS ;;
  download tt ;;;
  wrap_up tt ;;;
  ret summaries.

End Script.

(* ===================================================================== *)
(** ** What the remote answers, without the bookkeeping *)
(* ===================================================================== *)

Section Remote.

Context (h : Host).

(** The posts the remote returns for one page of a search. *)
Definition page_of (search_string uploaded_after : string) (page_number : nat)
  : result (list Post) :=
  rbind (open_read h (post_request search_string uploaded_after page_number (MAX_RESULTS h)))
        (fun body =>
  rbind (loads h body) (fun results =>
  rbind (Json.iter results) (fun items =>
  rmapM post_of_json items))).

(** The alias index has no record for [tag]. *)
Definition unknown_tag (tag : string) : Prop :=
  exists body results,
    open_read h (alias_request tag) = Ok body /\
    loads h body = Ok results /\
    Json.iter results = Ok [].

(** The records the alias index returns for [tag]. *)
Definition alias_records (tag : string) : result (list UserTag) :=
  rbind (open_read h (alias_request tag)) (fun body =>
  rbind (loads h body) (fun results =>
  rbind (Json.iter results) (fun items =>
  rmapM user_tag_of_json items))).

End Remote.

(** The requests of pages [first], [first+1], ..., [first+n-1]. *)
Definition page_requests (h : Host) (search_string uploaded_after : string)
    (first n : nat) : list Event :=
  map (fun p => EvOpen (post_request search_string uploaded_after p (MAX_RESULTS h)))
      (seq first n).

Definition log_events (evs : list Event) (g : Globals) : Globals :=
  set_trace (trace g ++ evs) g.

(** The fingerprints pushed to the cache, in order. *)
Fixpoint pushes (t : list Event) : list string :=
  match t with
  | [] => []
  | EvPush m :: t' => m :: pushes t'
  | _ :: t' => pushes t'
  end.

(** The batches handed to the downloader, in order. *)
Fixpoint batches (t : list Event) : list (list (string * string)) :=
  match t with
  | [] => []
  | EvMultiDownload tasks _ :: t' => tasks :: batches t'
  | _ :: t' => batches t'
  end.

(** The task the approval branch builds for [item] of [line]. *)
Definition task_of (h : Host) (cfg : Config) (line : string) (item : Post)
  : string * string :=
  (url item, (download_directory cfg ++ safe_filename h line item cfg)%string).

Definition total (c : Counters) : nat :=
  will_download c + links_missing_tags c + links_blacklisted c +
  links_on_disk c + links_in_cache c.

(** The four skip conditions, as properties of an item. *)
Section Reasons.

Context (h : Host) (g : Globals) (line : string) (all_tags extra_tags : list string)
        (item : Post).

(** The line has more than five tokens and the item has none of the extra
    tags. *)
Definition misses_required_tag : Prop :=
  5 < length all_tags /\ forall t, t ∈ extra_tags -> t ∉ Py.split (tags item).

Definition carries_blacklisted_tag : Prop :=
  exists t, t ∈ ALIASED_BLACKLIST g /\ t ∈ Py.split (tags item).

Definition is_on_disk : Prop :=
  (download_directory (CONFIG g) ++ safe_filename h line item (CONFIG g))%string
    ∈ files g.

Definition is_in_cache : Prop := md5 item ∈ entries (CACHE g).

End Reasons.

(** Between [g] and [g'] the items [approved] (each with its line) were
    approved, in that order, and nothing was handed to the downloader: the
    tasks appended and the fingerprints pushed are theirs. *)
Definition approved_between (h : Host) (g g' : Globals)
    (approved : list (string * Post)) : Prop :=
  CONFIG g' = CONFIG g /\
  URL_AND_NAME_LIST g' =
    URL_AND_NAME_LIST g ++ map (fun lp => task_of h (CONFIG g) (fst lp) (snd lp)) approved /\
  pushes (trace g') = pushes (trace g) ++ map (fun lp => md5 (snd lp)) approved /\
  batches (trace g') = batches (trace g).

(** The value an outcome returns, if it returns. *)
Definition returned {A} (o : outcome A) : option A :=
  match o with Done a _ => Some a | _ => None end.

(** The state in which an outcome leaves the globals. *)
Definition final {A} (o : outcome A) : Globals :=
  match o with Done _ g => g | Raised _ g => g | NoFuel g => g end.

Definition is_open (ev : Event) : Prop :=
  match ev with EvOpen _ => True | _ => False end.

(** [m] changes nothing but the trace, and adds only requests to it. *)
Definition requests_only {A} (m : M A) : Prop :=
  forall g, exists evs, final (m g) = log_events evs g /\ Forall is_open evs.

(** [m] approves nothing and hands nothing to the downloader. *)
Definition quiet (h : Host) {A} (m : M A) : Prop :=
  forall g, approved_between h g (final (m g)) [].

(* ===================================================================== *)
(** ** A scripted remote for the examples *)
(* ===================================================================== *)

Module Mock.

Fixpoint lookup {V} (key : string) (tbl : list (string * V)) : option V :=
  match tbl with
  | [] => None
  | (k, v) :: tbl' => if String.eqb k key then Some v else lookup key tbl'
  end.

(** [wire] maps a request to the body sent back (a request that is not
    listed fails in transport); [decode] maps a body to its JSON value. *)
Definition host (wire : list (string * string)) (decode : list (string * json))
    (max_results : nat) (today : Z) : Host :=
  mkHost
    (fun request => match lookup request wire with
                    | Some body => Ok body
                    | None => Err (IOError request)
                    end)
    (fun body => match lookup body decode with
                 | Some j => Ok j
                 | None => Err ValueError
                 end)
    (fun line item cfg => (line ++ "-" ++ Py.str_int (id item) ++ "." ++ ext item)%string)
    max_results
    today
    (fun d => Py.str_int d).

Definition json_of_post (p : Post) : json :=
  JObj [("file_url", JStr (url p)); ("id", JNum (id p)); ("md5", JStr (md5 p));
        ("file_ext", JStr (ext p)); ("tags", JStr (tags p))].

Definition post (tags : string) (n : nat) : Post :=
  let s := Py.str_int (Z.of_nat n) in
  mkPost ("http://static/" ++ s)%string (Z.of_nat n) ("md5-" ++ s)%string "png" tags.

(** [n] posts numbered from [first]. *)
Definition posts (tags : string) (first n : nat) : list Post :=
  map (post tags) (seq first n).

Definition config (cache_size : nat) : Config :=
  mkConfig "downloads/" "2016-01-01" 4 ".cache" cache_size.

(** The globals once initialization is over, with an empty cache. *)
Definition globals (cache_size : nat) : Globals :=
  mkGlobals (config cache_size) (mkFifo cache_size []) [] [] ∅ None [].

Definition page (search : string) (p max_results : nat) : string :=
  post_request search "2016-01-01" p max_results.

(** Three pages of 50, 50 and 37 posts for the search [cat]. *)
Definition pages_50_50_37 : Host :=
  host [(page "cat" 1 50, "p1"); (page "cat" 2 50, "p2"); (page "cat" 3 50, "p3")]
       [("p1", JArr (map json_of_post (posts "cat" 0 50)));
        ("p2", JArr (map json_of_post (posts "cat" 50 50)));
        ("p3", JArr (map json_of_post (posts "cat" 100 37)))]
       50 736000.

(** A full first page of 2 posts; the request for page 2 fails. *)
Definition page2_unreachable : Host :=
  host [(page "cat" 1 2, "p1")]
       [("p1", JArr (map json_of_post (posts "cat" 0 2)))]
       2 736000.

(** One short page of 3 posts; of the three files only the first can be
    fetched. *)
Definition three_posts : Host :=
  host [(page "cat" 1 50, "p1"); ("http://static/0", "bytes")]
       [("p1", JArr (map json_of_post (posts "cat" 0 3)))]
       50 736000.

(** The search [a b c d e] finds one post (tagged [a b c d e]) and one
    tagged [a b c d e bad]; the alias index has no record for [zzz], and
    for [f], [g] and [bad] a record under another name. The tag [cat] has a
    record under its own name, whose alias identifier 7 leads to [feline]. *)
Definition tagged : Host :=
  host [(page "a b c d e" 1 50, "p1");
        (alias_request "zzz", "none");
        (alias_request "f", "alias-f");
        (alias_request "g", "alias-g");
        (alias_request "bad", "alias-bad");
        (alias_request "cat", "alias-cat");
        (official_request 7, "tag-7")]
       [("p1", JArr [json_of_post (post "a b c d e" 0);
                     json_of_post (post "a b c d e bad" 1)]);
        ("none", JArr []);
        ("alias-f", JArr [JObj [("alias_id", JNum 1); ("name", JStr "eff")]]);
        ("alias-g", JArr [JObj [("alias_id", JNum 2); ("name", JStr "gee")]]);
        ("alias-bad", JArr [JObj [("alias_id", JNum 3); ("name", JStr "naughty")]]);
        ("alias-cat", JArr [JObj [("alias_id", JNum 7); ("name", JStr "cat")]]);
        ("[tag-7]", JArr [JObj [("name", JStr "feline")]])]
       50 736000.

(** The globals of [globals 2] once [bad] is blacklisted. *)
Definition blacklisting : Globals := set_ALIASED_BLACKLIST ["bad"] (globals 2).

(** A whole run over [three_posts] with a cache of capacity 2, and the
    globals of that run when its update phase is over. *)
Definition three_posts_run : outcome (list Summary) :=
  main three_posts 1 ["cat"] [] (globals 2).

Definition three_posts_updated : Globals :=
  final (update three_posts 1 ["cat"] (globals 2)).

End Mock.

(* ===================================================================== *)
(** ** Vocabulary for the frame properties, and further scripted remotes *)
(* ===================================================================== *)

(** Every outcome of [m] leaves the globals related to the initial ones. *)
Definition keeps {A} (R : Globals -> Globals -> Prop) (m : M A) : Prop :=
  forall g, R g (final (m g)).

(** Between [g] and [g'] no file was created, the configuration was neither
    changed nor written, and no batch was handed to the downloader. *)
Definition nothing_downloaded (g g' : Globals) : Prop :=
  files g' = files g /\ config_txt g' = config_txt g /\
  CONFIG g' = CONFIG g /\ batches (trace g') = batches (trace g).

(** [CACHE.push(item.md5)] for each of [items], in order. *)
Definition push_all (items : list Post) (c : FixedFifo) : FixedFifo :=
  foldl (fun c item => Fifo.push (md5 item) c) c items.

(** The keys [get_posts] reads in every element of a page. *)
Definition post_keys : list string := ["file_url"; "id"; "md5"; "file_ext"; "tags"].

(** What [get_alias] can return for [tag]: nothing else than the empty
    string or the tag. *)
Definition alias_or_empty (tag alias : string) : Prop := alias = "" \/ alias = tag.

(** The requests of the alias index for [tags], in order. *)
Definition alias_requests (tags : list string) : list Event :=
  map (fun t => EvOpen (alias_request t)) tags.

(** Between [g] and [g'] only requests were sent: the trace grew by
    requests and nothing else changed. *)
Definition only_requests_sent (g g' : Globals) : Prop :=
  CONFIG g' = CONFIG g /\ CACHE g' = CACHE g /\
  ALIASED_BLACKLIST g' = ALIASED_BLACKLIST g /\
  URL_AND_NAME_LIST g' = URL_AND_NAME_LIST g /\
  files g' = files g /\ config_txt g' = config_txt g /\
  exists evs, trace g' = trace g ++ evs /\ Forall is_open evs.

(** The globals after the items [approved] of [line] have gone through the
    approval branch, one after the other, from [g]. *)
Definition after_approvals (h : Host) (line : string) (approved : list Post)
    (g : Globals) : Globals :=
  log_events (map (fun item => EvPush (md5 item)) approved)
    (set_CACHE (push_all approved (CACHE g))
       (set_URL_AND_NAME_LIST
          (URL_AND_NAME_LIST g ++ map (task_of h (CONFIG g) line) approved) g)).

Module Scenario.

(** A page size of 2: page 1 is full, page 2 has three posts, page 3 has
    one. *)
Definition overfull : Host :=
  Mock.host [(Mock.page "cat" 1 2, "p1"); (Mock.page "cat" 2 2, "p2");
             (Mock.page "cat" 3 2, "p3")]
            [("p1", JArr (map Mock.json_of_post (Mock.posts "cat" 0 2)));
             ("p2", JArr (map Mock.json_of_post (Mock.posts "cat" 2 3)));
             ("p3", JArr (map Mock.json_of_post (Mock.posts "cat" 5 1)))]
            2 736000.

(** Every request is answered with the same full page of 2 posts. *)
Definition endless : Host :=
  mkHost (fun _ => Ok "p")
         (fun _ => Ok (JArr (map Mock.json_of_post (Mock.posts "cat" 0 2))))
         (safe_filename (Mock.host [] [] 2 736000))
         2 736000 Py.str_int.

(** A page whose second element has no [md5]. *)
Definition broken_post : Host :=
  Mock.host [(Mock.page "cat" 1 50, "p1")]
            [("p1", JArr [Mock.json_of_post (Mock.post "cat" 0);
                          JObj [("file_url", JStr "http://static/1"); ("id", JNum 1);
                                ("file_ext", JStr "png"); ("tags", JStr "cat")]])]
            50 736000.

(** The run over [Mock.three_posts] with the tag lines [cat] and [dog], up to
    the end of its update phase: the search for [dog] cannot be sent. *)
Definition second_line_unreachable : outcome (list Summary) :=
  (alias_blacklist Mock.three_posts [] ;;;
   update Mock.three_posts 1 ["cat"; "dog"]) (Mock.globals 2).

End Scenario.

(* ===================================================================== *)
(** * Properties *)
(* ===================================================================== *)

(** ** [str.split()] *)

Module PyFacts.
Import Py.

Lemma append_cons (c : ascii) (a b : string) :
  (String c a ++ b)%string = String c (a ++ b).
Proof. reflexivity. Qed.

Lemma append_nil_l (b : string) : ("" ++ b)%string = b.
Proof. reflexivity. Qed.

Lemma append_empty_r (s : string) : (s ++ "")%string = s.
Proof.
  induction s as [|c s IH]; [reflexivity|].
  now rewrite append_cons, IH.
Qed.

Lemma append_assoc (a b c : string) : ((a ++ b) ++ c)%string = (a ++ b ++ c)%string.
Proof.
  induction a as [|x a IH]; [reflexivity|].
  now rewrite !append_cons, IH.
Qed.

Lemma no_space_app (a b : string) :
  no_space (a ++ b) = no_space a && no_space b.
Proof.
  induction a as [|c a IH]; [reflexivity|].
  rewrite append_cons. simpl. rewrite IH. now rewrite andb_assoc.
Qed.

(** Reading a separator-free word only extends the current token. *)
Lemma split_go_word (w : string) :
  forall tok s, no_space w = true ->
    split_go tok (w ++ s) = split_go (tok ++ w) s.
Proof.
  induction w as [|c w IH]; intros tok s Hw.
  - now rewrite append_nil_l, append_empty_r.
  - simpl in Hw. apply andb_true_iff in Hw as [Hc Hw].
    apply negb_true_iff in Hc.
    rewrite append_cons. simpl. rewrite Hc.
    rewrite IH by assumption.
    rewrite append_assoc. reflexivity.
Qed.

Lemma split_go_end (tok : string) : tok <> "" -> split_go tok "" = [tok].
Proof.
  intros Hne. simpl. destruct (String.eqb_spec tok ""); [contradiction | reflexivity].
Qed.

Lemma split_go_sep (tok s : string) (c : ascii) :
  tok <> "" -> isspace c = true ->
  split_go tok (String c s) = tok :: split_go "" s.
Proof.
  intros Hne Hc. simpl. rewrite Hc.
  destruct (String.eqb_spec tok ""); [contradiction | reflexivity].
Qed.

Lemma split_token (t : string) : is_token t -> split t = [t].
Proof.
  intros [Hne Hns]. unfold split.
  rewrite <- (append_empty_r t) at 1.
  rewrite split_go_word by assumption. rewrite append_nil_l.
  now apply split_go_end.
Qed.

Lemma split_token_space (t s : string) :
  is_token t -> split (t ++ " " ++ s) = t :: split s.
Proof.
  intros [Hne Hns]. unfold split.
  rewrite split_go_word by assumption. rewrite append_nil_l.
  change (" " ++ s)%string with (String " " s).
  now apply split_go_sep.
Qed.

(** Every element of [s.split()] is a token. *)
Lemma split_go_tokens (s : string) :
  forall tok, no_space tok = true -> Forall is_token (split_go tok s).
Proof.
  induction s as [|c s IH]; intros tok Htok; simpl.
  - destruct (String.eqb_spec tok ""); [constructor|].
    constructor; [split; assumption | constructor].
  - destruct (isspace c) eqn:Hc.
    + destruct (String.eqb_spec tok "").
      * apply IH. reflexivity.
      * constructor; [split; assumption | apply IH; reflexivity].
    + apply IH. rewrite no_space_app, Htok. simpl. now rewrite Hc.
Qed.

Lemma split_tokens (s : string) : Forall is_token (split s).
Proof. apply split_go_tokens. reflexivity. Qed.

(** The empty string is never an element of [s.split()]. *)
Lemma empty_not_in_split (s : string) : "" ∉ split s.
Proof.
  intros Hin.
  pose proof (split_tokens s) as Hall.
  rewrite Forall_forall in Hall.
  destruct (Hall "" Hin) as [Hne _]. now apply Hne.
Qed.

(** Formatting five tokens with single spaces and splitting again gives the
    five tokens back. *)
Lemma split_format5 (a b c d e : string) :
  is_token a -> is_token b -> is_token c -> is_token d -> is_token e ->
  split (format5 a b c d e) = [a; b; c; d; e].
Proof.
  intros Ha Hb Hc Hd He. unfold format5.
  rewrite !split_token_space by assumption.
  now rewrite split_token.
Qed.

(** [list(set(xs) & set(ys)) == []] says that no element is shared. *)
Lemma is_empty_list_set_and (xs ys : list string) :
  is_empty_list (set_and xs ys) = true <-> (forall t, t ∈ xs -> t ∉ ys).
Proof.
  unfold is_empty_list, set_and.
  rewrite bool_decide_eq_true, elements_empty_iff.
  split.
  - intros Hemp t Hx Hy. apply (not_elem_of_empty (C := gset string) t).
    apply (Hemp t).
    apply elem_of_intersection. split; apply elem_of_list_to_set; assumption.
  - intros Hdisj t. split; intros Hin.
    + apply elem_of_intersection in Hin as [Hx Hy].
      apply elem_of_list_to_set in Hx. apply elem_of_list_to_set in Hy.
      exfalso. exact (Hdisj t Hx Hy).
    + exfalso. exact (not_elem_of_empty (C := gset string) t Hin).
Qed.

Lemma is_empty_list_set_and_false (xs ys : list string) :
  is_empty_list (set_and xs ys) = false <-> (exists t, t ∈ xs /\ t ∈ ys).
Proof.
  split.
  - intros Hf.
    destruct (decide (Exists (fun t => t ∈ ys) xs)) as [Hex | Hnex].
    + apply Exists_exists in Hex. exact Hex.
    + exfalso.
      assert (is_empty_list (set_and xs ys) = true) as Ht.
      { apply is_empty_list_set_and. intros t Hx Hy.
        apply Hnex. apply Exists_exists. eauto. }
      congruence.
  - intros (t & Hx & Hy).
    destruct (is_empty_list (set_and xs ys)) eqn:He; [|reflexivity].
    exfalso. rewrite is_empty_list_set_and in He. exact (He t Hx Hy).
Qed.

End PyFacts.

(** ** The monad *)

Ltac unfold_script :=
  unfold bind, ret, raise, get, modify, emit, lift, no_fuel in *.

Lemma bind_done {A B} (m : M A) (k : A -> M B) (g g' : Globals) (a : A) :
  m g = Done a g' -> bind m k g = k a g'.
Proof. intros Hm. unfold bind. now rewrite Hm. Qed.

Lemma bind_raised {A B} (m : M A) (k : A -> M B) (g g' : Globals) (e : exn) :
  m g = Raised e g' -> bind m k g = Raised e g'.
Proof. intros Hm. unfold bind. now rewrite Hm. Qed.

Lemma bind_get {B} (k : Globals -> M B) (g : Globals) : bind get k g = k g g.
Proof. reflexivity. Qed.

Lemma bind_ret {A B} (a : A) (k : A -> M B) (g : Globals) : bind (ret a) k g = k a g.
Proof. reflexivity. Qed.

Lemma bind_modify {B} (f : Globals -> Globals) (k : unit -> M B) (g : Globals) :
  bind (modify f) k g = k tt (f g).
Proof. reflexivity. Qed.

Lemma bind_emit {B} (ev : Event) (k : unit -> M B) (g : Globals) :
  bind (emit ev) k g = k tt (log_events [ev] g).
Proof. reflexivity. Qed.

Lemma log_events_app (a b : list Event) (g : Globals) :
  log_events b (log_events a g) = log_events (a ++ b) g.
Proof. unfold log_events, set_trace. simpl. now rewrite app_assoc. Qed.

Lemma log_events_nil (g : Globals) : log_events [] g = g.
Proof. destruct g. unfold log_events, set_trace. simpl. now rewrite app_nil_r. Qed.

Lemma CONFIG_log_events (evs : list Event) (g : Globals) :
  CONFIG (log_events evs g) = CONFIG g.
Proof. reflexivity. Qed.

(** ** [get_posts] *)

(** A call of [get_posts] sends one request and returns what the remote
    answers, or raises what the transport, the decoder or the schema raise. *)
Lemma get_posts_spec (h : Host) (search after : string) (p : nat) (g : Globals) :
  get_posts h search after p (MAX_RESULTS h) g =
  match page_of h search after p with
  | Ok posts =>
      Done posts (log_events [EvOpen (post_request search after p (MAX_RESULTS h))] g)
  | Err e =>
      Raised e (log_events [EvOpen (post_request search after p (MAX_RESULTS h))] g)
  end.
Proof.
  unfold get_posts, page_of, spoof_open_read. unfold_script. simpl.
  destruct (open_read h _) as [body|e]; simpl; [|reflexivity].
  destruct (loads h body) as [results|e]; simpl; [|reflexivity].
  destruct (Json.iter results) as [items|e]; simpl; [|reflexivity].
  destruct (rmapM post_of_json items) as [posts|e]; reflexivity.
Qed.

Lemma bind_get_posts {B} (h : Host) (search after : string) (p : nat)
    (k : list Post -> M B) (g : Globals) :
  bind (get_posts h search after p (MAX_RESULTS h)) k g =
  match page_of h search after p with
  | Ok posts =>
      k posts (log_events [EvOpen (post_request search after p (MAX_RESULTS h))] g)
  | Err e =>
      Raised e (log_events [EvOpen (post_request search after p (MAX_RESULTS h))] g)
  end.
Proof.
  unfold bind. rewrite get_posts_spec.
  destruct (page_of h search after p); reflexivity.
Qed.

(** ** Accumulation (lines 115-127) *)

Lemma page_requests_cons (h : Host) (search after : string) (first n : nat) :
  page_requests h search after first (S n) =
  EvOpen (post_request search after first (MAX_RESULTS h))
    :: page_requests h search after (first + 1) n.
Proof.
  unfold page_requests. simpl. now rewrite Nat.add_1_r.
Qed.

(** The loop started at page [first] with [acc] already found: through the
    full pages [pages] and up to the short page [last]. *)
Lemma accumulate_pages (h : Host) (search : string) :
  forall (pages : list (list Post)) (last : list Post) (fuel first : nat)
         (acc : list Post) (g : Globals),
    (forall i page, pages !! i = Some page ->
       page_of h search (last_run (CONFIG g)) (first + i) = Ok page /\
       length page = MAX_RESULTS h) ->
    page_of h search (last_run (CONFIG g)) (first + length pages) = Ok last ->
    length last < MAX_RESULTS h ->
    length pages < fuel ->
    accumulate h fuel search first acc g =
    Done (acc ++ concat pages ++ last)
         (log_events (page_requests h search (last_run (CONFIG g)) first
                                    (S (length pages))) g).
Proof.
  induction pages as [|pg pages IH]; intros last fuel first acc g Hfull Hlast Hshort Hfuel.
  - destruct fuel as [|fuel]; [simpl in Hfuel; lia|].
    simpl length in Hlast. rewrite Nat.add_0_r in Hlast.
    simpl accumulate. rewrite bind_get, bind_get_posts, Hlast.
    destruct last as [|x last].
    + unfold ret. simpl. now rewrite app_nil_r.
    + destruct (Nat.eqb_spec (length (x :: last)) (MAX_RESULTS h)) as [Heq|_]; [lia|].
      reflexivity.
  - destruct fuel as [|fuel]; [simpl in Hfuel; lia|].
    destruct (Hfull 0 pg eq_refl) as [Hpg Hlen].
    rewrite Nat.add_0_r in Hpg.
    simpl accumulate. rewrite bind_get, bind_get_posts, Hpg.
    destruct pg as [|x pg]; [simpl in Hlen; lia|].
    rewrite Hlen, Nat.eqb_refl.
    rewrite (IH last fuel (first + 1) _ _).
    + rewrite log_events_app, CONFIG_log_events.
      rewrite (page_requests_cons h search _ first (S (length pages))).
      simpl concat. f_equal. simpl. now rewrite <- !app_assoc.
    + intros i page Hi. rewrite CONFIG_log_events.
      replace (first + 1 + i) with (first + S i) by lia.
      apply Hfull. exact Hi.
    + rewrite CONFIG_log_events.
      simpl length in Hlast.
      replace (first + 1 + length pages) with (first + S (length pages)) by lia.
      exact Hlast.
    + exact Hshort.
    + simpl in Hfuel. lia.
Qed.

Lemma length_concat_full {A} (pages : list (list A)) (n : nat) :
  (forall i page, pages !! i = Some page -> length page = n) ->
  length (concat pages) = length pages * n.
Proof.
  induction pages as [|pg pages IH]; intros Hfull; [reflexivity|].
  simpl. rewrite length_app.
  rewrite (Hfull 0 pg eq_refl).
  rewrite IH; [reflexivity|].
  intros i page Hi. exact (Hfull (S i) page Hi).
Qed.

(** C2. Accumulation asks for pages 1, 2, 3, ... in order; it goes on after
    every page that is exactly full and stops at the first page with fewer
    than [MAX_RESULTS] posts (an empty one included), returning the pages
    fetched, concatenated in the order they were fetched. With [n] full
    pages before the short one, the result has [n * MAX_RESULTS] posts plus
    those of the short page, and exactly [n + 1] requests were sent. *)
Theorem accumulate_stops_at_first_short_page
    (h : Host) (search : string) (fuel : nat) (g : Globals)
    (pages : list (list Post)) (last : list Post) :
  (forall i page, pages !! i = Some page ->
     page_of h search (last_run (CONFIG g)) (1 + i) = Ok page /\
     length page = MAX_RESULTS h) ->
  page_of h search (last_run (CONFIG g)) (1 + length pages) = Ok last ->
  length last < MAX_RESULTS h ->
  length pages < fuel ->
  accumulate h fuel search 1 [] g =
    Done (concat pages ++ last)
         (log_events (page_requests h search (last_run (CONFIG g)) 1
                                    (S (length pages))) g) /\
  length (concat pages ++ last) = length pages * MAX_RESULTS h + length last.
Proof.
  intros Hfull Hlast Hshort Hfuel. split.
  - rewrite (accumulate_pages h search pages last fuel 1 [] g); auto.
  - rewrite length_app. f_equal.
    apply length_concat_full.
    intros i page Hi. exact (proj2 (Hfull i page Hi)).
Qed.

(** Pages of 50, 50 and 37 posts with a page size of 50: 137 posts are
    returned and pages 1, 2 and 3 are requested, in that order. *)
Lemma accumulate_50_50_37 :
  accumulate Mock.pages_50_50_37 3 "cat" 1 [] (Mock.globals 100) =
    Done (Mock.posts "cat" 0 50 ++ Mock.posts "cat" 50 50 ++ Mock.posts "cat" 100 37)
         (log_events [EvOpen (Mock.page "cat" 1 50); EvOpen (Mock.page "cat" 2 50);
                      EvOpen (Mock.page "cat" 3 50)] (Mock.globals 100)) /\
  length (Mock.posts "cat" 0 50 ++ Mock.posts "cat" 50 50 ++ Mock.posts "cat" 100 37)
    = 137.
Proof.
  pose proof (accumulate_stops_at_first_short_page
                Mock.pages_50_50_37 "cat" 3 (Mock.globals 100)
                [Mock.posts "cat" 0 50; Mock.posts "cat" 50 50]
                (Mock.posts "cat" 100 37)) as H.
  destruct H as [Hrun Hlen].
  - intros [|[|i]] page Hi; simpl in Hi; inversion Hi; subst; clear Hi.
    + split; vm_compute; reflexivity.
    + split; vm_compute; reflexivity.
  - vm_compute. reflexivity.
  - vm_compute. lia.
  - simpl. lia.
  - split.
    + rewrite Hrun. reflexivity.
    + vm_compute. reflexivity.
Defined.

(** ** Computations that only talk to the remote *)

Lemma requests_only_ret {A} (a : A) : requests_only (ret a).
Proof. intros g. exists []. split; [symmetry; apply log_events_nil | constructor]. Qed.

Lemma requests_only_raise {A} (e : exn) : requests_only (@raise A e).
Proof. intros g. exists []. split; [symmetry; apply log_events_nil | constructor]. Qed.

Lemma requests_only_no_fuel {A} : requests_only (@no_fuel A).
Proof. intros g. exists []. split; [symmetry; apply log_events_nil | constructor]. Qed.

Lemma requests_only_get : requests_only get.
Proof. intros g. exists []. split; [symmetry; apply log_events_nil | constructor]. Qed.

Lemma requests_only_lift {A} (r : result A) : requests_only (lift r).
Proof. destruct r; [apply requests_only_ret | apply requests_only_raise]. Qed.

Lemma requests_only_open (request : string) : requests_only (emit (EvOpen request)).
Proof.
  intros g. exists [EvOpen request]. split; [reflexivity|].
  constructor; [exact I | constructor].
Qed.

Lemma requests_only_bind {A B} (m : M A) (k : A -> M B) :
  requests_only m -> (forall a, requests_only (k a)) -> requests_only (bind m k).
Proof.
  intros Hm Hk g. destruct (Hm g) as (evs & Hg & Hevs).
  unfold bind. destruct (m g) as [a g1|e g1|g1]; simpl in Hg; subst g1.
  - destruct (Hk a (log_events evs g)) as (evs' & Hg' & Hevs').
    exists (evs ++ evs'). split.
    + now rewrite Hg', log_events_app.
    + apply Forall_app. split; assumption.
  - exists evs. split; [reflexivity | assumption].
  - exists evs. split; [reflexivity | assumption].
Qed.

Lemma requests_only_for_each {A B} (f : B -> A -> M B) (l : list A) :
  (forall b a, requests_only (f b a)) -> forall acc, requests_only (for_each f l acc).
Proof.
  intros Hf. induction l as [|x l IH]; intros acc; simpl.
  - apply requests_only_ret.
  - apply requests_only_bind; [apply Hf | exact IH].
Qed.

Create HintDb requests discriminated.
#[local] Hint Resolve requests_only_ret requests_only_raise requests_only_no_fuel
  requests_only_get requests_only_lift requests_only_open : requests.

Lemma requests_only_spoof_open_read (h : Host) (request : string) :
  requests_only (spoof_open_read h request).
Proof.
  unfold spoof_open_read. apply requests_only_bind; auto with requests.
Qed.

Lemma requests_only_get_posts (h : Host) (search after : string) (p n : nat) :
  requests_only (get_posts h search after p n).
Proof.
  unfold get_posts.
  apply requests_only_bind; [apply requests_only_spoof_open_read|]. intros body.
  apply requests_only_bind; [auto with requests|]. intros results.
  apply requests_only_bind; auto with requests.
Qed.

Lemma requests_only_get_alias (h : Host) (tag : string) :
  requests_only (get_alias h tag).
Proof.
  unfold get_alias.
  apply requests_only_bind; [apply requests_only_spoof_open_read|]. intros body.
  apply requests_only_bind; [auto with requests|]. intros results.
  apply requests_only_bind; [auto with requests|]. intros items.
  apply requests_only_bind; [auto with requests|]. intros [|u us];
    [auto with requests|].
  apply requests_only_bind; [auto with requests|]. intros name_0.
  destruct (String.eqb tag name_0); [|auto with requests].
  apply requests_only_bind; [auto with requests|]. intros alias_id.
  apply requests_only_bind; [apply requests_only_spoof_open_read|]. intros body'.
  apply requests_only_bind; [auto with requests|]. intros results'.
  apply requests_only_bind; [auto with requests|]. intros items'.
  apply requests_only_bind; [auto with requests|]. intros [|a0 atl];
    auto with requests.
Qed.

Lemma requests_only_expand_line (h : Host) (line : string) :
  requests_only (expand_line h line).
Proof.
  unfold expand_line.
  destruct (5 <? length (Py.split line))%nat; [|auto with requests].
  apply requests_only_bind; [|auto with requests].
  apply requests_only_for_each. intros extra tag.
  destruct (bool_decide _); [auto with requests|].
  apply requests_only_bind; [apply requests_only_get_alias | auto with requests].
Qed.

Lemma requests_only_accumulate (h : Host) (search : string) (fuel : nat) :
  forall p acc, requests_only (accumulate h fuel search p acc).
Proof.
  induction fuel as [|fuel IH]; intros p acc; simpl.
  - auto with requests.
  - apply requests_only_bind; [auto with requests|]. intros g.
    apply requests_only_bind; [apply requests_only_get_posts|].
    intros [|x links]; [auto with requests|].
    destruct (_ =? _)%nat; [apply IH | auto with requests].
Qed.

Lemma pushes_app (a b : list Event) : pushes (a ++ b) = pushes a ++ pushes b.
Proof.
  induction a as [|ev a IH]; [reflexivity|].
  destruct ev; simpl; now rewrite IH.
Qed.

Lemma batches_app (a b : list Event) : batches (a ++ b) = batches a ++ batches b.
Proof.
  induction a as [|ev a IH]; [reflexivity|].
  destruct ev; simpl; now rewrite IH.
Qed.

Lemma pushes_open (evs : list Event) : Forall is_open evs -> pushes evs = [].
Proof.
  induction 1 as [|ev evs Hev _ IH]; [reflexivity|].
  destruct ev; simpl in *; now try contradiction.
Qed.

Lemma batches_open (evs : list Event) : Forall is_open evs -> batches evs = [].
Proof.
  induction 1 as [|ev evs Hev _ IH]; [reflexivity|].
  destruct ev; simpl in *; now try contradiction.
Qed.

(** ** [get_alias] (lines 35-64 of [lib/api.py]) *)

(** The three ways a call of [get_alias] ends once the alias index has
    answered: no record, a first record under the queried name, a first
    record under another name. *)
Lemma get_alias_spec (h : Host) (tag : string) (g : Globals) :
  get_alias h tag g =
  match alias_records h tag with
  | Err e => Raised e (log_events [EvOpen (alias_request tag)] g)
  | Ok [] => Done "" (log_events [EvOpen (alias_request tag)] g)
  | Ok (u :: _) =>
      if String.eqb tag (name u)
      then Raised (AttributeError "alias_id") (log_events [EvOpen (alias_request tag)] g)
      else Done tag (log_events [EvOpen (alias_request tag)] g)
  end.
Proof.
  unfold get_alias, alias_records, spoof_open_read. unfold_script. simpl.
  destruct (open_read h _) as [body|e]; simpl; [|reflexivity].
  destruct (loads h body) as [results|e]; simpl; [|reflexivity].
  destruct (Json.iter results) as [items|e]; simpl; [|reflexivity].
  destruct (rmapM user_tag_of_json items) as [[|u us]|e]; simpl; try reflexivity.
  destruct (String.eqb tag (name u)); reflexivity.
Qed.

Lemma alias_records_unknown (h : Host) (tag : string) :
  unknown_tag h tag -> alias_records h tag = Ok [].
Proof.
  intros (body & results & Hopen & Hloads & Hiter).
  unfold alias_records. rewrite Hopen. simpl. rewrite Hloads. simpl.
  rewrite Hiter. reflexivity.
Qed.

(** C9. Where the alias index has a first record whose name is the queried
    tag, the call reads the attribute [alias_id] of a [UserTag], whose
    declaration names that field [aliasz_id]: [AttributeError] is raised, no
    second request is sent and no replacement name is returned. Where the
    first record has another name, the tag is returned unchanged. *)
Theorem get_alias_first_record
    (h : Host) (tag : string) (g : Globals) (u : UserTag) (us : list UserTag) :
  alias_records h tag = Ok (u :: us) ->
  (name u = tag ->
     get_alias h tag g =
     Raised (AttributeError "alias_id") (log_events [EvOpen (alias_request tag)] g)) /\
  (name u <> tag ->
     get_alias h tag g = Done tag (log_events [EvOpen (alias_request tag)] g)).
Proof.
  intros Hrec. rewrite get_alias_spec, Hrec. split; intros Hname.
  - rewrite Hname, String.eqb_refl. reflexivity.
  - destruct (String.eqb_spec tag (name u)) as [Heq|_]; [congruence | reflexivity].
Qed.

(** The tag [cat] has a record under its own name, with the replacement
    [feline] behind alias identifier 7: the call raises; [f] has a record
    under another name and comes back unchanged. *)
Lemma get_alias_cat_raises :
  get_alias Mock.tagged "cat" (Mock.globals 2) =
    Raised (AttributeError "alias_id")
           (log_events [EvOpen (alias_request "cat")] (Mock.globals 2)) /\
  get_alias Mock.tagged "f" (Mock.globals 2) =
    Done "f" (log_events [EvOpen (alias_request "f")] (Mock.globals 2)).
Proof.
  split.
  - apply (get_alias_first_record Mock.tagged "cat" (Mock.globals 2)
             (mkUserTag 7 "cat") []); reflexivity.
  - apply (get_alias_first_record Mock.tagged "f" (Mock.globals 2)
             (mkUserTag 1 "eff") []); [reflexivity | discriminate].
Defined.

(** ** Tag-group expansion (lines 102-113) *)

Lemma map_each_length {A B} (f : A -> M B) (l : list A) :
  forall g ys g', map_each f l g = Done ys g' -> length ys = length l.
Proof.
  induction l as [|x l IH]; intros g ys g' Hrun; simpl in Hrun.
  - unfold ret in Hrun. now inversion Hrun.
  - unfold bind in Hrun.
    destruct (f x g) as [y g1|e g1|g1]; try discriminate.
    destruct (map_each f l g1) as [ys' g2|e g2|g2] eqn:Hrest; try discriminate.
    unfold ret in Hrun. inversion Hrun; subst. simpl.
    f_equal. exact (IH g1 ys' g' Hrest).
Qed.

(** The loop of lines 108-110 appends, in order, the alias of every tag
    that is not in the search clause. *)
Lemma extra_tags_loop (h : Host) (S : list string) (l : list string) :
  forall acc g,
    for_each (fun extra_tags tag =>
                if bool_decide (tag ∈ S) then ret extra_tags
                else alias <- get_alias h tag ;; ret (extra_tags ++ [alias]))
             l acc g =
    (aliases <- map_each (get_alias h) (filter (fun t => t ∉ S) l) ;;
     ret (acc ++ aliases)) g.
Proof.
  induction l as [|x l IH]; intros acc g.
  - simpl. rewrite bind_ret. now rewrite app_nil_r.
  - simpl for_each. destruct (bool_decide (x ∈ S)) eqn:Hb.
    + apply bool_decide_eq_true in Hb.
      rewrite bind_ret, IH.
      rewrite filter_cons_False by (intros Hn; exact (Hn Hb)).
      reflexivity.
    + apply bool_decide_eq_false in Hb.
      rewrite filter_cons_True by assumption.
      simpl map_each. unfold bind.
      destruct (get_alias h x g) as [a g1|e g1|g1]; try reflexivity.
      unfold ret at 1. rewrite IH.
      unfold bind.
      destruct (map_each (get_alias h) (filter (fun t => t ∉ S) l) g1)
        as [ys g2|e g2|g2]; try reflexivity.
      unfold ret. now rewrite <- app_assoc.
Qed.

Lemma filter_none {A} (P : A -> Prop) `{forall x, Decision (P x)} (l : list A) :
  Forall (fun x => ~ P x) l -> filter P l = [].
Proof.
  induction 1 as [|x l Hx _ IH]; [reflexivity|].
  now rewrite filter_cons_False.
Qed.

Lemma filter_all {A} (P : A -> Prop) `{forall x, Decision (P x)} (l : list A) :
  Forall P l -> filter P l = l.
Proof.
  induction 1 as [|x l Hx _ IH]; [reflexivity|].
  rewrite filter_cons_True by assumption. now rewrite IH.
Qed.

(** Without repeated tokens, the tokens outside the prefix are those that
    follow it. *)
Lemma filter_not_in_prefix (pre suf : list string) :
  NoDup (pre ++ suf) -> filter (fun t => t ∉ pre) (pre ++ suf) = suf.
Proof.
  intros Hnd.
  apply NoDup_app in Hnd as (_ & Hdisj & _).
  rewrite filter_app.
  rewrite filter_none, filter_all; [reflexivity | |].
  - apply Forall_forall. intros t Ht Hin. exact (Hdisj t Hin Ht).
  - apply Forall_forall. intros t Ht Hn. exact (Hn Ht).
Qed.

Lemma filter_not_in_take (l : list string) (n : nat) :
  NoDup l -> filter (fun t => t ∉ take n l) l = drop n l.
Proof.
  intros Hnd.
  pose proof (filter_not_in_prefix (take n l) (drop n l)) as H.
  rewrite take_drop in H. exact (H Hnd).
Qed.

Lemma expand_line_short (h : Host) (line : string) (g : Globals) :
  length (Py.split line) <= 5 ->
  expand_line h line g = Done (Py.split line, line, []) g.
Proof.
  intros Hlen. unfold expand_line.
  destruct (Nat.ltb_spec 5 (length (Py.split line))) as [Hgt|_]; [lia | reflexivity].
Qed.

Lemma expand_line_long (h : Host) (line : string) :
  5 < length (Py.split line) ->
  exists search_tags,
    Py.split search_tags = take 5 (Py.split line) /\
    forall g,
      expand_line h line g =
        (extra_tags <- map_each (get_alias h)
                         (filter (fun t => t ∉ take 5 (Py.split line)) (Py.split line)) ;;
         ret (Py.split line, search_tags, extra_tags)) g.
Proof.
  intros Hlen. unfold expand_line.
  destruct (Nat.ltb_spec 5 (length (Py.split line))) as [_|Hle]; [|lia].
  pose proof (PyFacts.split_tokens line) as Htok.
  destruct (Py.split line) as [|a0 [|a1 [|a2 [|a3 [|a4 [|a5 rest]]]]]] eqn:Hsplit;
    simpl in Hlen; try lia.
  repeat match goal with
         | H : Forall _ (_ :: _) |- _ => apply Forall_cons in H as [? H]
         end.
  exists (Py.format5 a0 a1 a2 a3 a4).
  assert (Py.split (Py.format5 a0 a1 a2 a3 a4) = [a0; a1; a2; a3; a4]) as Hsearch
    by (apply PyFacts.split_format5; assumption).
  split; [exact Hsearch|].
  intros g. cbn [nth take]. rewrite Hsearch.
  unfold bind at 1. rewrite extra_tags_loop.
  unfold bind.
  destruct (map_each _ _ g) as [ys g1|e g1|g1]; reflexivity.
Qed.

(** C3. A line of at most five tokens is its own search clause and has no
    extra tags. A line of more than five tokens is searched by its first
    five tokens, in their order, and its extra tags are the aliases, in
    order, of the tokens that are not among those five; when the tokens are
    distinct these are the tokens after the fifth, so seven distinct tags
    give five search tags and two extra tags. *)
Theorem expand_line_groups (h : Host) (line : string) (g : Globals) :
  (length (Py.split line) <= 5 ->
     expand_line h line g = Done (Py.split line, line, []) g) /\
  (5 < length (Py.split line) ->
     exists search_tags,
       Py.split search_tags = take 5 (Py.split line) /\
       expand_line h line g =
         (extra_tags <- map_each (get_alias h)
                          (filter (fun t => t ∉ take 5 (Py.split line)) (Py.split line)) ;;
          ret (Py.split line, search_tags, extra_tags)) g) /\
  (5 < length (Py.split line) -> NoDup (Py.split line) ->
     forall all_tags search_tags extra_tags g',
       expand_line h line g = Done (all_tags, search_tags, extra_tags) g' ->
       length (Py.split search_tags) = 5 /\
       length extra_tags = length (Py.split line) - 5).
Proof.
  split; [apply expand_line_short|].
  split.
  { intros Hlen. destruct (expand_line_long h line Hlen) as (search & Hsearch & Heq).
    exists search. split; [exact Hsearch | apply Heq]. }
  intros Hlen Hnd all_tags search_tags extra_tags g' Hrun.
  destruct (expand_line_long h line Hlen) as (search & Hsearch & Heq).
  rewrite Heq in Hrun. unfold bind in Hrun.
  destruct (map_each _ _ g) as [ys g1|e g1|g1] eqn:Hmap; try discriminate.
  unfold ret in Hrun. inversion Hrun; subst. clear Hrun.
  split.
  - rewrite Hsearch, length_take. lia.
  - rewrite (map_each_length _ _ _ _ _ Hmap).
    rewrite filter_not_in_take by assumption.
    rewrite length_drop. reflexivity.
Qed.

(** Seven distinct tags: the search clause is the first five, the extra
    tags are the aliases of the sixth and the seventh. *)
Lemma expand_seven_tags :
  expand_line Mock.tagged "a b c" (Mock.globals 2) =
    Done (Py.split "a b c", "a b c", []) (Mock.globals 2) /\
  expand_line Mock.tagged "a b c d e f g" (Mock.globals 2) =
    Done (["a"; "b"; "c"; "d"; "e"; "f"; "g"], "a b c d e", ["f"; "g"])
         (log_events [EvOpen (alias_request "f"); EvOpen (alias_request "g")]
                     (Mock.globals 2)) /\
  length (Py.split "a b c d e") = 5 /\
  length ["f"; "g"] = length (Py.split "a b c d e f g") - 5.
Proof.
  destruct (expand_line_groups Mock.tagged "a b c" (Mock.globals 2))
    as (Hshort & _ & _).
  split; [apply Hshort; vm_compute; lia|].
  destruct (expand_line_groups Mock.tagged "a b c d e f g" (Mock.globals 2))
    as (_ & Hlong & Hseven).
  assert (5 < length (Py.split "a b c d e f g")) as Hlen by (vm_compute; lia).
  assert (NoDup (Py.split "a b c d e f g")) as Hnd
    by (apply (bool_decide_unpack _); vm_compute; exact I).
  destruct (Hlong Hlen) as (search & Hsearch & Hrun).
  assert (expand_line Mock.tagged "a b c d e f g" (Mock.globals 2) =
          Done (["a"; "b"; "c"; "d"; "e"; "f"; "g"], "a b c d e", ["f"; "g"])
               (log_events [EvOpen (alias_request "f"); EvOpen (alias_request "g")]
                           (Mock.globals 2))) as Hdone
    by (vm_compute; reflexivity).
  split; [exact Hdone|].
  exact (Hseven Hlen Hnd _ _ _ _ Hdone).
Defined.

(** ** The filter chain (lines 144-166) *)

Lemma isfile_true (h : Host) (g : Globals) (line : string) (item : Post) :
  isfile g (download_directory (CONFIG g) ++ safe_filename h line item (CONFIG g)) = true
  <-> is_on_disk h g line item.
Proof. unfold isfile, is_on_disk. apply bool_decide_eq_true. Qed.

Lemma contains_true (x : string) (c : FixedFifo) :
  Fifo.contains x c = true <-> x ∈ entries c.
Proof. unfold Fifo.contains. apply bool_decide_eq_true. Qed.

Lemma missing_check_true (all_tags extra_tags : list string) (item : Post) :
  (5 <? length all_tags)%nat &&
    Py.is_empty_list (Py.set_and extra_tags (Py.split (tags item))) = true
  <-> misses_required_tag all_tags extra_tags item.
Proof.
  unfold misses_required_tag.
  rewrite andb_true_iff, Nat.ltb_lt, PyFacts.is_empty_list_set_and. reflexivity.
Qed.

Lemma blacklist_check_true (g : Globals) (item : Post) :
  negb (Py.is_empty_list (Py.set_and (ALIASED_BLACKLIST g) (Py.split (tags item)))) = true
  <-> carries_blacklisted_tag g item.
Proof.
  unfold carries_blacklisted_tag.
  rewrite negb_true_iff. apply PyFacts.is_empty_list_set_and_false.
Qed.

Lemma not_true_iff (b : bool) (P : Prop) : (b = true <-> P) -> (b = false <-> ~ P).
Proof.
  intros H. destruct b; split; intros H'; try reflexivity; try discriminate.
  - exfalso. apply H'. now apply H.
  - intros HP. apply H in HP. discriminate.
Qed.

(** The chain, read branch by branch. *)
Lemma decide_item_cases (h : Host) (g : Globals) (line : string)
    (all_tags extra_tags : list string) (item : Post) :
  match decide_item h g line all_tags extra_tags item with
  | MissingRequiredTag => misses_required_tag all_tags extra_tags item
  | Blacklisted =>
      ~ misses_required_tag all_tags extra_tags item /\
      carries_blacklisted_tag g item
  | AlreadyOnDisk =>
      ~ misses_required_tag all_tags extra_tags item /\
      ~ carries_blacklisted_tag g item /\
      is_on_disk h g line item
  | AlreadyCached =>
      ~ misses_required_tag all_tags extra_tags item /\
      ~ carries_blacklisted_tag g item /\
      ~ is_on_disk h g line item /\
      is_in_cache g item
  | Approved =>
      ~ misses_required_tag all_tags extra_tags item /\
      ~ carries_blacklisted_tag g item /\
      ~ is_on_disk h g line item /\
      ~ is_in_cache g item
  end.
Proof.
  unfold decide_item.
  destruct (_ && _) eqn:H1.
  { now apply missing_check_true. }
  apply (not_true_iff _ _ (missing_check_true _ _ _)) in H1.
  destruct (negb _) eqn:H2.
  { split; [assumption | now apply blacklist_check_true]. }
  apply (not_true_iff _ _ (blacklist_check_true _ _)) in H2.
  destruct (isfile _ _) eqn:H3.
  { repeat split; try assumption. now apply isfile_true. }
  apply (not_true_iff _ _ (isfile_true _ _ _ _)) in H3.
  destruct (Fifo.contains _ _) eqn:H4.
  { repeat split; try assumption. now apply contains_true. }
  apply (not_true_iff _ _ (contains_true _ _)) in H4.
  repeat split; assumption.
Qed.

(** Extra tags come only from lines of more than five tokens. *)
Lemma extra_tags_only_from_long_lines (h : Host) (line : string) (g g' : Globals)
    (all_tags extra_tags : list string) (search_tags : string) :
  expand_line h line g = Done (all_tags, search_tags, extra_tags) g' ->
  all_tags = Py.split line /\ (extra_tags <> [] -> 5 < length all_tags).
Proof.
  intros Hrun.
  destruct (le_lt_dec (length (Py.split line)) 5) as [Hle|Hgt].
  - rewrite expand_line_short in Hrun by assumption.
    inversion Hrun; subst. split; [reflexivity | congruence].
  - destruct (expand_line_long h line Hgt) as (search & _ & Heq).
    rewrite Heq in Hrun. unfold bind in Hrun.
    destruct (map_each _ _ g) as [ys g1|e g1|g1]; try discriminate.
    unfold ret in Hrun. inversion Hrun; subst. split; [reflexivity | auto].
Qed.

(** C1. The disposition of an item is the first of MissingRequiredTag,
    Blacklisted, AlreadyOnDisk, AlreadyCached whose condition holds, and
    Approved when none does. In particular an item of an expanded group
    whose extra tags are not empty and share nothing with the item's tags
    is MissingRequiredTag even when it carries a blacklisted tag. *)
Theorem filter_precedence (h : Host) (g : Globals) (line : string)
    (all_tags extra_tags : list string) (item : Post) :
  (decide_item h g line all_tags extra_tags item = MissingRequiredTag <->
     misses_required_tag all_tags extra_tags item) /\
  (decide_item h g line all_tags extra_tags item = Blacklisted <->
     ~ misses_required_tag all_tags extra_tags item /\
     carries_blacklisted_tag g item) /\
  (decide_item h g line all_tags extra_tags item = AlreadyOnDisk <->
     ~ misses_required_tag all_tags extra_tags item /\
     ~ carries_blacklisted_tag g item /\
     is_on_disk h g line item) /\
  (decide_item h g line all_tags extra_tags item = AlreadyCached <->
     ~ misses_required_tag all_tags extra_tags item /\
     ~ carries_blacklisted_tag g item /\
     ~ is_on_disk h g line item /\
     is_in_cache g item) /\
  (decide_item h g line all_tags extra_tags item = Approved <->
     ~ misses_required_tag all_tags extra_tags item /\
     ~ carries_blacklisted_tag g item /\
     ~ is_on_disk h g line item /\
     ~ is_in_cache g item) /\
  (forall g0 g1 search_tags,
     expand_line h line g0 = Done (all_tags, search_tags, extra_tags) g1 ->
     extra_tags <> [] ->
     (forall t, t ∈ extra_tags -> t ∉ Py.split (tags item)) ->
     carries_blacklisted_tag g item ->
     decide_item h g line all_tags extra_tags item = MissingRequiredTag /\
     decide_item h g line all_tags extra_tags item <> Blacklisted).
Proof.
  pose proof (decide_item_cases h g line all_tags extra_tags item) as Hd.
  set (d := decide_item h g line all_tags extra_tags item) in *.
  assert (misses_required_tag all_tags extra_tags item -> d = MissingRequiredTag)
    as Hmiss.
  { intros Hm. destruct d; try reflexivity; exfalso; tauto. }
  split; [|split; [|split; [|split; [|split]]]].
  - split; [intros Heq; now rewrite Heq in Hd | exact Hmiss].
  - split; [intros Heq; now rewrite Heq in Hd|].
    intros [Hn Hb]. destruct d; try reflexivity; exfalso; tauto.
  - split; [intros Heq; now rewrite Heq in Hd|].
    intros (Hn & Hb & Hf). destruct d; try reflexivity; exfalso; tauto.
  - split; [intros Heq; now rewrite Heq in Hd|].
    intros (Hn & Hb & Hf & Hc). destruct d; try reflexivity; exfalso; tauto.
  - split; [intros Heq; now rewrite Heq in Hd|].
    intros (Hn & Hb & Hf & Hc). destruct d; try reflexivity; exfalso; tauto.
  - intros g0 g1 search_tags Hexp Hne Hdisj Hb.
    destruct (extra_tags_only_from_long_lines _ _ _ _ _ _ _ Hexp) as [_ Hlong].
    assert (d = MissingRequiredTag) as Heq by (apply Hmiss; split; auto).
    split; [exact Heq | rewrite Heq; discriminate].
Qed.

(** An item with the tags [a b c d e bad], the blacklist [bad] and the line
    [a b c d e f]: the item lacks the extra tag [f] and carries a
    blacklisted tag; it is reported as MissingRequiredTag. *)
Lemma missing_tag_wins_over_blacklist :
  decide_item Mock.tagged Mock.blacklisting
              "a b c d e f" ["a"; "b"; "c"; "d"; "e"; "f"] ["f"]
              (Mock.post "a b c d e bad" 1) = MissingRequiredTag /\
  decide_item Mock.tagged Mock.blacklisting
              "a b c d e f" ["a"; "b"; "c"; "d"; "e"; "f"] ["f"]
              (Mock.post "a b c d e bad" 1) <> Blacklisted.
Proof.
  destruct (filter_precedence Mock.tagged Mock.blacklisting
              "a b c d e f" ["a"; "b"; "c"; "d"; "e"; "f"] ["f"]
              (Mock.post "a b c d e bad" 1))
    as (_ & _ & _ & _ & _ & Hparticular).
  apply (Hparticular (Mock.globals 2)
           (log_events [EvOpen (alias_request "f")] (Mock.globals 2)) "a b c d e").
  - vm_compute. reflexivity.
  - discriminate.
  - apply PyFacts.is_empty_list_set_and. vm_compute. reflexivity.
  - apply PyFacts.is_empty_list_set_and_false. vm_compute. reflexivity.
Defined.

(** ** The missing-tag check on a line without extra tags (lines 104, 145) *)

(** C4. A line of more than five tokens whose tokens all occur among its
    first five has no extra tags, and the check of line 145, which tests the
    number of tokens of the line and not whether there are extra tags, reports
    MissingRequiredTag for every item. *)
Theorem duplicate_overflow_skips_every_item (h : Host) (g : Globals) (line : string)
    (item : Post) :
  5 < length (Py.split line) ->
  (forall t, t ∈ Py.split line -> t ∈ take 5 (Py.split line)) ->
  (exists search_tags, forall g0,
     expand_line h line g0 = Done (Py.split line, search_tags, []) g0) /\
  decide_item h g line (Py.split line) [] item = MissingRequiredTag.
Proof.
  intros Hlen Hdup. split.
  - destruct (expand_line_long h line Hlen) as (search & _ & Heq).
    exists search. intros g0. rewrite Heq.
    rewrite filter_none; [reflexivity|].
    apply Forall_forall. intros t Ht Hn. exact (Hn (Hdup t Ht)).
  - pose proof (decide_item_cases h g line (Py.split line) [] item) as Hd.
    assert (misses_required_tag (Py.split line) [] item) as Hm.
    { split; [exact Hlen|]. intros t Ht. inversion Ht. }
    destruct (decide_item h g line (Py.split line) [] item);
      try reflexivity; exfalso; tauto.
Qed.

(** The line [a b c d e a]: no extra tags, and a post tagged [a b c d e],
    which the search for [a b c d e] returns, is skipped as missing a
    requested tag. *)
Lemma duplicate_overflow_example :
  (exists search_tags, forall g0,
     expand_line Mock.tagged "a b c d e a" g0 =
     Done (Py.split "a b c d e a", search_tags, []) g0) /\
  decide_item Mock.tagged (Mock.globals 2) "a b c d e a" (Py.split "a b c d e a") []
              (Mock.post "a b c d e" 0) = MissingRequiredTag.
Proof.
  apply (duplicate_overflow_skips_every_item Mock.tagged (Mock.globals 2)
           "a b c d e a" (Mock.post "a b c d e" 0)).
  - vm_compute. lia.
  - intros t Ht. apply (bool_decide_unpack _).
    revert t Ht. apply Forall_forall. vm_compute.
    repeat constructor.
Defined.

(** ** Tags the alias index does not know (lines 45-48 of [lib/api.py]) *)

(** The empty string shares nothing with the tags of an item: dropping it
    from a list does not change the emptiness test of the intersection. *)
Lemma set_and_without_empty (l : list string) (s : string) :
  Py.is_empty_list (Py.set_and (filter (fun t => t <> "") l) (Py.split s)) =
  Py.is_empty_list (Py.set_and l (Py.split s)).
Proof.
  apply eq_true_iff_eq. rewrite !PyFacts.is_empty_list_set_and.
  split; intros H t Ht.
  - destruct (decide (t = "")) as [->|Hne].
    + apply PyFacts.empty_not_in_split.
    + apply H. apply list_elem_of_filter. split; assumption.
  - apply H. apply list_elem_of_filter in Ht. tauto.
Qed.

Lemma decide_item_blacklist_without_empty (h : Host) (g : Globals) (line : string)
    (all_tags extra_tags blacklist : list string) (item : Post) :
  decide_item h (set_ALIASED_BLACKLIST blacklist g) line all_tags extra_tags item =
  decide_item h (set_ALIASED_BLACKLIST (filter (fun t => t <> "") blacklist) g)
              line all_tags extra_tags item.
Proof.
  unfold decide_item. simpl.
  now rewrite set_and_without_empty.
Qed.

Lemma decide_item_extra_without_empty (h : Host) (g : Globals) (line : string)
    (all_tags extra_tags : list string) (item : Post) :
  decide_item h g line all_tags extra_tags item =
  decide_item h g line all_tags (filter (fun t => t <> "") extra_tags) item.
Proof.
  unfold decide_item.
  now rewrite set_and_without_empty.
Qed.

(** C7. A tag without a record in the alias index does not stop the run:
    [get_alias] returns the empty string for it. The empty string equals no
    tag of any item, so in the blacklist it never causes a Blacklisted skip,
    and among the extra tags it never lets an item pass the required-tag
    check; taking it out of either list changes no disposition as long as
    the tokens of the line are the same. The tag still counts as a token of
    its line: when the extra tags of a line of more than five tokens are all
    unknown, every item is MissingRequiredTag. *)
Theorem unknown_tag_resolves_to_empty_string (h : Host) (tag : string) :
  unknown_tag h tag ->
  (forall g, get_alias h tag g =
             Done "" (log_events [EvOpen (alias_request tag)] g)) /\
  (forall s, "" ∉ Py.split s) /\
  (forall g line all_tags extra_tags blacklist item,
     decide_item h (set_ALIASED_BLACKLIST blacklist g) line all_tags extra_tags item =
     decide_item h (set_ALIASED_BLACKLIST (filter (fun t => t <> "") blacklist) g)
                 line all_tags extra_tags item) /\
  (forall g line all_tags extra_tags item,
     decide_item h g line all_tags extra_tags item =
     decide_item h g line all_tags (filter (fun t => t <> "") extra_tags) item) /\
  (forall g line all_tags extra_tags item,
     5 < length all_tags ->
     (forall t, t ∈ extra_tags -> t = "") ->
     decide_item h g line all_tags extra_tags item = MissingRequiredTag).
Proof.
  intros Hunknown.
  split; [|split; [|split; [|split]]].
  - intros g. rewrite get_alias_spec, (alias_records_unknown h tag Hunknown).
    reflexivity.
  - apply PyFacts.empty_not_in_split.
  - intros. apply decide_item_blacklist_without_empty.
  - intros. apply decide_item_extra_without_empty.
  - intros g line all_tags extra_tags item Hlen Hall.
    pose proof (decide_item_cases h g line all_tags extra_tags item) as Hd.
    assert (misses_required_tag all_tags extra_tags item) as Hm.
    { split; [exact Hlen|]. intros t Ht.
      rewrite (Hall t Ht). apply PyFacts.empty_not_in_split. }
    destruct (decide_item h g line all_tags extra_tags item);
      try reflexivity; exfalso; tauto.
Qed.

(** The tag [zzz] is unknown. As the sixth token of [a b c d e zzz] it
    becomes the extra tag [""], and the post tagged [a b c d e] is
    MissingRequiredTag. *)
Lemma unknown_tag_zzz :
  get_alias Mock.tagged "zzz" (Mock.globals 2) =
    Done "" (log_events [EvOpen (alias_request "zzz")] (Mock.globals 2)) /\
  decide_item Mock.tagged (Mock.globals 2) "a b c d e zzz"
              ["a"; "b"; "c"; "d"; "e"; "zzz"] [""] (Mock.post "a b c d e" 0)
    = MissingRequiredTag.
Proof.
  assert (unknown_tag Mock.tagged "zzz") as Hunknown.
  { exists "none", (JArr []). repeat split; vm_compute; reflexivity. }
  destruct (unknown_tag_resolves_to_empty_string Mock.tagged "zzz" Hunknown)
    as (Halias & _ & _ & _ & Hskip).
  split; [apply Halias|].
  apply Hskip.
  - simpl. lia.
  - intros t Ht. apply list_elem_of_singleton in Ht. exact Ht.
Defined.

(** With the unknown tag [zzz] as sixth token, both posts the search
    returns are skipped as MissingRequiredTag; without it, on the line
    [a b c d e], which sends the same search, both are approved: the unknown
    tag is what causes the skips. *)
Lemma unknown_extra_tag_skips_everything :
  unknown_tag Mock.tagged "zzz" /\
  counters <$> returned (update_line Mock.tagged 1 "a b c d e zzz" (Mock.globals 2))
    = Some (mkCounters 2 0 0 0 0) /\
  counters <$> returned (update_line Mock.tagged 1 "a b c d e" (Mock.globals 2))
    = Some (mkCounters 0 0 0 0 2).
Proof.
  split; [|split].
  - exists "none", (JArr []). repeat split; vm_compute; reflexivity.
  - vm_compute. reflexivity.
  - vm_compute. reflexivity.
Qed.

(** ** The disposition loop (lines 133-173) *)

Lemma filter_item_approved (h : Host) (line : string) (all_tags extra_tags : list string)
    (c : Counters) (item : Post) (g : Globals) :
  decide_item h g line all_tags extra_tags item = Approved ->
  filter_item h line all_tags extra_tags c item g =
  Done (mkCounters (links_missing_tags c) (links_blacklisted c) (links_in_cache c)
                   (links_on_disk c) (will_download c + 1))
       (log_events [EvPush (md5 item)]
          (set_CACHE (Fifo.push (md5 item) (CACHE g))
             (set_URL_AND_NAME_LIST
                (URL_AND_NAME_LIST g ++ [task_of h (CONFIG g) line item]) g))).
Proof.
  intros Hd. unfold filter_item. rewrite bind_get, Hd. reflexivity.
Qed.

Lemma filter_item_skipped (h : Host) (line : string) (all_tags extra_tags : list string)
    (c : Counters) (item : Post) (g : Globals) :
  decide_item h g line all_tags extra_tags item <> Approved ->
  exists c',
    filter_item h line all_tags extra_tags c item g = Done c' g /\
    total c' = total c + 1 /\
    will_download c' = will_download c.
Proof.
  intros Hd. unfold filter_item. rewrite bind_get.
  destruct (decide_item h g line all_tags extra_tags item);
    try contradiction; eexists; (split; [reflexivity|]);
    unfold total; simpl; split; lia.
Qed.

Lemma approved_between_refl (h : Host) (g : Globals) : approved_between h g g [].
Proof. unfold approved_between. simpl. now rewrite !app_nil_r. Qed.

Lemma approved_between_trans (h : Host) (g g1 g2 : Globals)
    (a1 a2 : list (string * Post)) :
  approved_between h g g1 a1 -> approved_between h g1 g2 a2 ->
  approved_between h g g2 (a1 ++ a2).
Proof.
  intros (Hc1 & Hu1 & Hp1 & Hb1) (Hc2 & Hu2 & Hp2 & Hb2).
  unfold approved_between.
  rewrite Hc2, Hc1, Hu2, Hu1, Hp2, Hp1, Hb2, Hb1, Hc1.
  rewrite !map_app, !app_assoc. auto.
Qed.

Lemma approved_between_log (h : Host) (g : Globals) (evs : list Event) :
  Forall is_open evs -> approved_between h g (log_events evs g) [].
Proof.
  intros Hevs. unfold approved_between. simpl.
  rewrite pushes_app, batches_app, (pushes_open evs Hevs), (batches_open evs Hevs).
  now rewrite !app_nil_r.
Qed.

Lemma approved_between_requests {A} (h : Host) (m : M A) (g g' : Globals) (a : A) :
  requests_only m -> m g = Done a g' -> approved_between h g g' [].
Proof.
  intros Hm Hrun. destruct (Hm g) as (evs & Hfinal & Hevs).
  rewrite Hrun in Hfinal. simpl in Hfinal. subst g'.
  now apply approved_between_log.
Qed.

(** The loop gives every item one disposition: the counters grow by the
    number of items, and the tasks appended and the fingerprints pushed are
    those of the approved items, in order. *)
Lemma filter_loop (h : Host) (line : string) (all_tags extra_tags : list string)
    (items : list Post) :
  forall c g, exists c' g' approved,
    for_each (filter_item h line all_tags extra_tags) items c g = Done c' g' /\
    total c' = total c + length items /\
    will_download c' = will_download c + length approved /\
    sublist approved items /\
    approved_between h g g' (map (pair line) approved).
Proof.
  induction items as [|item items IH]; intros c g.
  - exists c, g, []. simpl.
    split; [reflexivity|]. split; [lia|]. split; [lia|].
    split; [constructor | apply approved_between_refl].
  - simpl for_each.
    destruct (decide_item h g line all_tags extra_tags item) eqn:Hd.
    1-4: destruct (filter_item_skipped h line all_tags extra_tags c item g)
           as (c1 & Hstep & Htot & Hwill); [rewrite Hd; discriminate|];
         destruct (IH c1 g) as (c' & g' & approved & Hrun & Htot' & Hwill' & Hsub & Happ);
         exists c', g', approved;
         rewrite (bind_done _ _ _ _ _ Hstep);
         (split; [exact Hrun|]); simpl length;
         (split; [lia|]); (split; [lia|]);
         (split; [now apply sublist_cons | exact Happ]).
    pose proof (filter_item_approved h line all_tags extra_tags c item g Hd) as Hstep.
    destruct (IH (mkCounters (links_missing_tags c) (links_blacklisted c)
                             (links_in_cache c) (links_on_disk c) (will_download c + 1))
                 (log_events [EvPush (md5 item)]
                    (set_CACHE (Fifo.push (md5 item) (CACHE g))
                       (set_URL_AND_NAME_LIST
                          (URL_AND_NAME_LIST g ++ [task_of h (CONFIG g) line item]) g))))
      as (c' & g' & approved & Hrun & Htot' & Hwill' & Hsub & Happ).
    exists c', g', (item :: approved).
    rewrite (bind_done _ _ _ _ _ Hstep).
    split; [exact Hrun|]. simpl length.
    unfold total in *. simpl in Htot', Hwill'.
    split; [lia|]. split; [lia|].
    split; [now apply sublist_skip|].
    change (map (pair line) (item :: approved))
      with ([(line, item)] ++ map (pair line) approved).
    eapply approved_between_trans; [|exact Happ].
    unfold approved_between. simpl.
    rewrite pushes_app, batches_app. simpl.
    now rewrite app_nil_r.
Qed.

(** What a completed [update_line] leaves behind. *)
Lemma update_line_done (h : Host) (fuel : nat) (line : string) (g g' : Globals)
    (s : Summary) :
  update_line h fuel line g = Done s g' ->
  exists approved,
    total (counters s) = length (potential_downloads s) /\
    will_download (counters s) = length approved /\
    sublist approved (potential_downloads s) /\
    approved_between h g g' (map (pair line) approved).
Proof.
  unfold update_line. intros Hrun.
  unfold bind at 1 in Hrun.
  destruct (expand_line h line g) as [[[all_tags search_tags] extra_tags] g1|e g1|g1]
    eqn:Hexp; try discriminate.
  unfold bind at 1 in Hrun.
  destruct (accumulate h fuel search_tags 1 [] g1) as [pd g2|e g2|g2] eqn:Hacc;
    try discriminate.
  pose proof (approved_between_requests h _ _ _ _
                (requests_only_expand_line h line) Hexp) as H1.
  pose proof (approved_between_requests h _ _ _ _
                (requests_only_accumulate h search_tags fuel 1 []) Hacc) as H2.
  pose proof (approved_between_trans h _ _ _ _ _ H1 H2) as H12. simpl in H12.
  destruct (0 <? length pd)%nat eqn:Hpd.
  - destruct (filter_loop h line all_tags extra_tags pd zero_counters g2)
      as (c' & g3 & approved & Hloop & Htot & Hwill & Hsub & Happ).
    rewrite (bind_done _ _ _ _ _ Hloop) in Hrun.
    unfold ret in Hrun. inversion Hrun; subst. clear Hrun.
    exists approved. simpl.
    split; [exact Htot|]. split; [exact Hwill|]. split; [exact Hsub|].
    apply (approved_between_trans h _ _ _ [] _ H12 Happ).
  - unfold ret in Hrun. inversion Hrun; subst. clear Hrun.
    apply Nat.ltb_ge in Hpd.
    exists []. simpl.
    split; [unfold total; simpl; lia|]. split; [reflexivity|].
    split; [apply sublist_nil_l | exact H12].
Qed.

(** C10. Every candidate of a tag line takes exactly one branch of the
    chain, so the five counters of the line add up to the number of
    candidates found, and the line appends as many (url, destination) pairs
    to [URL_AND_NAME_LIST] as [will_download] counts. *)
Theorem counters_partition_candidates (h : Host) (line : string) :
  (forall all_tags extra_tags items g,
     exists c g' tasks,
       for_each (filter_item h line all_tags extra_tags) items zero_counters g =
         Done c g' /\
       total c = length items /\
       URL_AND_NAME_LIST g' = URL_AND_NAME_LIST g ++ tasks /\
       length tasks = will_download c) /\
  (forall fuel g s g',
     update_line h fuel line g = Done s g' ->
     total (counters s) = length (potential_downloads s) /\
     exists tasks,
       URL_AND_NAME_LIST g' = URL_AND_NAME_LIST g ++ tasks /\
       length tasks = will_download (counters s)).
Proof.
  split.
  - intros all_tags extra_tags items g.
    destruct (filter_loop h line all_tags extra_tags items zero_counters g)
      as (c & g' & approved & Hrun & Htot & Hwill & _ & (_ & Hurl & _)).
    exists c, g', (map (fun lp => task_of h (CONFIG g) (fst lp) (snd lp))
                       (map (pair line) approved)).
    repeat split; try assumption.
    rewrite !length_map. simpl in Hwill. lia.
  - intros fuel g s g' Hrun.
    destruct (update_line_done h fuel line g g' s Hrun)
      as (approved & Htot & Hwill & _ & (_ & Hurl & _)).
    split; [exact Htot|].
    exists (map (fun lp => task_of h (CONFIG g) (fst lp) (snd lp))
                (map (pair line) approved)).
    split; [exact Hurl|].
    rewrite !length_map. lia.
Qed.

(** The line [a b c d e] with the blacklist [bad]: two candidates, one
    blacklisted and one approved, and one pair appended. *)
Lemma counters_of_a_b_c_d_e :
  update_line Mock.tagged 1 "a b c d e" Mock.blacklisting =
    Done (mkSummary [Mock.post "a b c d e" 0; Mock.post "a b c d e bad" 1]
                    (mkCounters 0 1 0 0 1))
         (log_events [EvOpen (Mock.page "a b c d e" 1 50); EvPush "md5-0"]
            (set_CACHE (mkFifo 2 ["md5-0"])
               (set_URL_AND_NAME_LIST
                  [("http://static/0", "downloads/a b c d e-0.png")]
                  Mock.blacklisting))) /\
  total (mkCounters 0 1 0 0 1) = 2 /\
  exists tasks,
    [("http://static/0", "downloads/a b c d e-0.png")] =
      URL_AND_NAME_LIST Mock.blacklisting ++ tasks /\
    length tasks = 1.
Proof.
  assert (update_line Mock.tagged 1 "a b c d e" Mock.blacklisting =
          Done (mkSummary [Mock.post "a b c d e" 0; Mock.post "a b c d e bad" 1]
                          (mkCounters 0 1 0 0 1))
               (log_events [EvOpen (Mock.page "a b c d e" 1 50); EvPush "md5-0"]
                  (set_CACHE (mkFifo 2 ["md5-0"])
                     (set_URL_AND_NAME_LIST
                        [("http://static/0", "downloads/a b c d e-0.png")]
                        Mock.blacklisting)))) as Hrun
    by (vm_compute; reflexivity).
  split; [exact Hrun|].
  destruct (counters_partition_candidates Mock.tagged "a b c d e") as [_ Hline].
  exact (Hline 1 _ _ _ Hrun).
Defined.

(** ** The approval step and the batch (lines 166-173 and 181-183) *)

Lemma push_contains (x : string) (c : FixedFifo) :
  0 < capacity c -> Fifo.contains x (Fifo.push x c) = true.
Proof.
  intros Hcap. unfold Fifo.push.
  destruct (Fifo.contains x c) eqn:Hin; [exact Hin|].
  apply contains_true. simpl.
  rewrite length_app. simpl.
  rewrite drop_app_le by lia.
  apply elem_of_app. right. apply list_elem_of_singleton. reflexivity.
Qed.

Lemma quiet_requests_only (h : Host) {A} (m : M A) : requests_only m -> quiet h m.
Proof.
  intros Hm g. destruct (Hm g) as (evs & -> & Hevs).
  now apply approved_between_log.
Qed.

Lemma quiet_bind (h : Host) {A B} (m : M A) (k : A -> M B) :
  quiet h m -> (forall a, quiet h (k a)) -> quiet h (bind m k).
Proof.
  intros Hm Hk g. specialize (Hm g). unfold bind.
  destruct (m g) as [a g1|e g1|g1]; simpl in Hm; simpl; try exact Hm.
  apply (approved_between_trans h g g1 _ [] [] Hm). apply Hk.
Qed.

Lemma quiet_for_each (h : Host) {A B} (f : B -> A -> M B) (l : list A) :
  (forall b a, quiet h (f b a)) -> forall acc, quiet h (for_each f l acc).
Proof.
  intros Hf. induction l as [|x l IH]; intros acc; simpl.
  - intros g. apply approved_between_refl.
  - apply quiet_bind; [apply Hf | exact IH].
Qed.

Lemma quiet_set_blacklist (h : Host) (f : Globals -> list string) :
  quiet h (modify (fun g => set_ALIASED_BLACKLIST (f g) g)).
Proof.
  intros g. unfold approved_between. simpl. now rewrite !app_nil_r.
Qed.

Lemma quiet_alias_blacklist (h : Host) (BLACKLIST : list string) :
  quiet h (alias_blacklist h BLACKLIST).
Proof.
  unfold alias_blacklist.
  apply quiet_bind; [apply (quiet_set_blacklist h (fun _ => []))|]. intros _.
  apply quiet_for_each. intros _ tag.
  apply quiet_bind; [apply quiet_requests_only, requests_only_get_alias|].
  intros alias. apply (quiet_set_blacklist h (fun g => ALIASED_BLACKLIST g ++ [alias])).
Qed.

Lemma update_lines_done (h : Host) (fuel : nat) (TAGS : list string) :
  forall g sums g',
    map_each (update_line h fuel) TAGS g = Done sums g' ->
    exists approved, approved_between h g g' approved.
Proof.
  induction TAGS as [|line TAGS IH]; intros g sums g' Hrun; simpl in Hrun.
  - unfold ret in Hrun. inversion Hrun; subst.
    exists []. apply approved_between_refl.
  - unfold bind at 1 in Hrun.
    destruct (update_line h fuel line g) as [s g1|e g1|g1] eqn:Hline; try discriminate.
    unfold bind at 1 in Hrun.
    destruct (map_each (update_line h fuel) TAGS g1) as [ss g2|e g2|g2] eqn:Hrest;
      try discriminate.
    unfold ret in Hrun. inversion Hrun; subst. clear Hrun.
    destruct (update_line_done h fuel line g g1 s Hline) as (a1 & _ & _ & _ & H1).
    destruct (IH g1 ss g' Hrest) as (a2 & H2).
    exists (map (pair line) a1 ++ a2).
    exact (approved_between_trans h _ _ _ _ _ H1 H2).
Qed.

(** One task of the batch, whatever the transport does: the file is
    created, the request is sent, and the batch goes on. *)
Lemma download_contained_spec (h : Host) (task : string * string) (g : Globals) :
  download_contained h task g =
  Done tt (log_events [EvOpen (fst task)]
             (set_files ({[snd task]} ∪ files g) g)).
Proof.
  unfold download_contained, download_post, spoof_open_read. unfold_script. simpl.
  destruct (open_read h (fst task)); reflexivity.
Qed.

(** The batch always completes; it adds requests to the trace and files to
    the disk, and leaves [CONFIG], the cache and the download list alone. *)
Lemma download_tasks_spec (h : Host) (tasks : list (string * string)) :
  forall g, exists g' opens,
    for_each (fun _ task => download_contained h task) tasks tt g = Done tt g' /\
    trace g' = trace g ++ opens /\ Forall is_open opens /\
    CONFIG g' = CONFIG g /\ CACHE g' = CACHE g /\
    URL_AND_NAME_LIST g' = URL_AND_NAME_LIST g.
Proof.
  induction tasks as [|task tasks IH]; intros g.
  - exists g, []. simpl. rewrite app_nil_r. repeat split. constructor.
  - simpl for_each.
    rewrite (bind_done _ _ _ _ _ (download_contained_spec h task g)).
    destruct (IH (log_events [EvOpen (fst task)]
                    (set_files ({[snd task]} ∪ files g) g)))
      as (g' & opens & Hrun & Htrace & Hopens & Hcfg & Hcache & Hurl).
    exists g', (EvOpen (fst task) :: opens).
    split; [exact Hrun|].
    split; [rewrite Htrace; simpl; now rewrite <- app_assoc|].
    split; [constructor; [exact I | exact Hopens]|].
    repeat split; assumption.
Qed.

Lemma download_spec (h : Host) (g : Globals) :
  exists g' opens,
    download h tt g = Done tt g' /\
    trace g' = trace g ++
      match URL_AND_NAME_LIST g with
      | [] => []
      | _ :: _ =>
          EvMultiDownload (URL_AND_NAME_LIST g) (parallel_downloads (CONFIG g)) :: opens
      end /\
    Forall is_open opens /\
    CONFIG g' = CONFIG g /\ CACHE g' = CACHE g.
Proof.
  unfold download. rewrite bind_get.
  destruct (URL_AND_NAME_LIST g) as [|task tasks] eqn:Hurl.
  - exists g, []. rewrite app_nil_r. repeat split. constructor.
  - unfold multi_download. rewrite bind_emit.
    destruct (download_tasks_spec h (task :: tasks)
                (log_events [EvMultiDownload (task :: tasks)
                               (parallel_downloads (CONFIG g))] g))
      as (g' & opens & Hrun & Htrace & Hopens & Hcfg & Hcache & _).
    exists g', opens.
    split; [exact Hrun|].
    split; [rewrite Htrace; simpl; now rewrite <- app_assoc|].
    repeat split; assumption.
Qed.

Lemma wrap_up_spec (h : Host) (g : Globals) :
  wrap_up h tt g =
  match Date.fromordinal (today h - 1) with
  | Ok YESTERDAY =>
      let cfg := set_last_run (strftime h YESTERDAY) (CONFIG g) in
      Done tt (log_events [EvDump cfg] (set_config_txt (Some cfg) (set_CONFIG cfg g)))
  | Err e => Raised e g
  end.
Proof.
  unfold wrap_up. destruct (Date.fromordinal (today h - 1)); reflexivity.
Qed.

Lemma fromordinal_in_range (n : Z) :
  (1 <= n <= Date.max_ordinal)%Z -> Date.fromordinal n = Ok n.
Proof.
  intros [Hlo Hhi]. unfold Date.fromordinal.
  apply Z.leb_le in Hlo. apply Z.leb_le in Hhi.
  now rewrite Hlo, Hhi.
Qed.

(** The four phases of a run that completes. *)
Lemma main_done (h : Host) (fuel : nat) (TAGS BLACKLIST : list string)
    (g g' : Globals) (sums : list Summary) :
  main h fuel TAGS BLACKLIST g = Done sums g' ->
  exists g1 g2 g3,
    alias_blacklist h BLACKLIST g = Done tt g1 /\
    update h fuel TAGS g1 = Done sums g2 /\
    download h tt g2 = Done tt g3 /\
    wrap_up h tt g3 = Done tt g'.
Proof.
  unfold main. intros Hrun.
  unfold bind at 1 in Hrun.
  destruct (alias_blacklist h BLACKLIST g) as [[] g1|e g1|g1] eqn:H1; try discriminate.
  unfold bind at 1 in Hrun.
  destruct (update h fuel TAGS g1) as [ss g2|e g2|g2] eqn:H2; try discriminate.
  unfold bind at 1 in Hrun.
  destruct (download h tt g2) as [[] g3|e g3|g3] eqn:H3; try discriminate.
  unfold bind at 1 in Hrun.
  destruct (wrap_up h tt g3) as [[] g4|e g4|g4] eqn:H4; try discriminate.
  unfold ret in Hrun. inversion Hrun; subst.
  exists g1, g2, g3. auto.
Qed.

Lemma main_phases (h : Host) (fuel : nat) (TAGS BLACKLIST : list string)
    (g g1 g2 g3 : Globals) (sums : list Summary) :
  alias_blacklist h BLACKLIST g = Done tt g1 ->
  update h fuel TAGS g1 = Done sums g2 ->
  download h tt g2 = Done tt g3 ->
  main h fuel TAGS BLACKLIST g =
  match wrap_up h tt g3 with
  | Done _ g' => Done sums g'
  | Raised e g' => Raised e g'
  | NoFuel g' => NoFuel g'
  end.
Proof.
  intros H1 H2 H3. unfold main.
  rewrite (bind_done _ _ _ _ _ H1), (bind_done _ _ _ _ _ H2), (bind_done _ _ _ _ _ H3).
  unfold bind. destruct (wrap_up h tt g3) as [[] g4|e g4|g4]; reflexivity.
Qed.

Lemma update_done (h : Host) (fuel : nat) (TAGS : list string) (g g' : Globals)
    (sums : list Summary) :
  update h fuel TAGS g = Done sums g' ->
  exists approved,
    CONFIG g' = CONFIG g /\
    URL_AND_NAME_LIST g' =
      map (fun lp => task_of h (CONFIG g) (fst lp) (snd lp)) approved /\
    pushes (trace g') = pushes (trace g) ++ map (fun lp => md5 (snd lp)) approved /\
    batches (trace g') = batches (trace g).
Proof.
  unfold update. rewrite bind_modify. intros Hrun.
  destruct (update_lines_done h fuel TAGS _ _ _ Hrun) as (approved & Happ).
  exists approved. exact Happ.
Qed.

(** C5. An approved item gets its task, [(url, download_directory +
    filename)], appended to [URL_AND_NAME_LIST] and its fingerprint pushed to
    the cache in the same step, where a cache that can hold anything then
    contains it. In a run that completes, when the update phase is over the
    list holds exactly the tasks of the approved items, their fingerprints
    have been pushed in the same order, and no batch has been handed to the
    downloader; the one batch that follows is that list. The cache is
    bounded, so a later approval may have evicted an earlier fingerprint by
    the time the batch starts. *)
Theorem approval_pushes_before_download (h : Host) :
  (forall g line all_tags extra_tags c item,
     decide_item h g line all_tags extra_tags item = Approved ->
     exists c' g',
       filter_item h line all_tags extra_tags c item g = Done c' g' /\
       URL_AND_NAME_LIST g' =
         URL_AND_NAME_LIST g ++
         [(url item,
           (download_directory (CONFIG g) ++ safe_filename h line item (CONFIG g))%string)] /\
       CACHE g' = Fifo.push (md5 item) (CACHE g) /\
       trace g' = trace g ++ [EvPush (md5 item)] /\
       (0 < capacity (CACHE g) -> Fifo.contains (md5 item) (CACHE g') = true)) /\
  (forall fuel TAGS BLACKLIST g sums g',
     main h fuel TAGS BLACKLIST g = Done sums g' ->
     exists g1 g2 g3 approved opens,
       alias_blacklist h BLACKLIST g = Done tt g1 /\
       update h fuel TAGS g1 = Done sums g2 /\
       URL_AND_NAME_LIST g2 =
         map (fun lp => task_of h (CONFIG g) (fst lp) (snd lp)) approved /\
       pushes (trace g2) = pushes (trace g) ++ map (fun lp => md5 (snd lp)) approved /\
       batches (trace g2) = batches (trace g) /\
       download h tt g2 = Done tt g3 /\
       trace g3 = trace g2 ++
         match URL_AND_NAME_LIST g2 with
         | [] => []
         | _ :: _ =>
             EvMultiDownload (URL_AND_NAME_LIST g2) (parallel_downloads (CONFIG g2))
               :: opens
         end /\
       Forall is_open opens /\
       trace g' = trace g3 ++ [EvDump (CONFIG g')]).
Proof.
  split.
  - intros g line all_tags extra_tags c item Hd.
    eexists _, _. split; [apply (filter_item_approved _ _ _ _ _ _ _ Hd)|].
    simpl. repeat split.
    intros Hcap. now apply push_contains.
  - intros fuel TAGS BLACKLIST g sums g' Hrun.
    destruct (main_done _ _ _ _ _ _ _ Hrun) as (g1 & g2 & g3 & Ha & Hu & Hd & Hw).
    destruct (update_done _ _ _ _ _ _ Hu) as (approved & Hcfg & Hurl & Hpush & Hbatch).
    destruct (quiet_alias_blacklist h BLACKLIST g) as (Hcfg1 & _ & Hpush1 & Hbatch1).
    rewrite Ha in Hcfg1, Hpush1, Hbatch1. simpl in Hcfg1, Hpush1, Hbatch1.
    rewrite app_nil_r in Hpush1.
    destruct (download_spec h g2) as (g3' & opens & Hd' & Htrace & Hopens & _ & _).
    rewrite Hd in Hd'. inversion Hd'; subst g3'. clear Hd'.
    exists g1, g2, g3, approved, opens.
    split; [exact Ha|]. split; [exact Hu|].
    split; [now rewrite Hurl, Hcfg1|].
    split; [now rewrite Hpush, Hpush1|].
    split; [now rewrite Hbatch, Hbatch1|].
    split; [exact Hd|]. split; [exact Htrace|]. split; [exact Hopens|].
    rewrite wrap_up_spec in Hw.
    destruct (Date.fromordinal (today h - 1)); [|discriminate].
    inversion Hw; subst. reflexivity.
Qed.

(** Three posts are approved with a cache of capacity 2: each approval
    appends its task and pushes its fingerprint, and the batch of three
    tasks follows the three pushes. *)
Lemma approval_of_three_posts :
  (exists c' g',
     filter_item Mock.three_posts "cat" ["cat"] [] zero_counters (Mock.post "cat" 0)
                 (Mock.globals 2) = Done c' g' /\
     URL_AND_NAME_LIST g' = [] ++ [("http://static/0", "downloads/cat-0.png")] /\
     CACHE g' = Fifo.push "md5-0" (mkFifo 2 []) /\
     trace g' = [] ++ [EvPush "md5-0"] /\
     (0 < 2 -> Fifo.contains "md5-0" (CACHE g') = true)) /\
  (exists sums, Mock.three_posts_run = Done sums (final Mock.three_posts_run)) /\
  (exists g2 g3 approved opens,
     URL_AND_NAME_LIST g2 =
       map (fun lp => task_of Mock.three_posts (Mock.config 2) (fst lp) (snd lp))
           approved /\
     pushes (trace g2) = [] ++ map (fun lp => md5 (snd lp)) approved /\
     batches (trace g2) = [] /\
     download Mock.three_posts tt g2 = Done tt g3 /\
     trace g3 = trace g2 ++
       match URL_AND_NAME_LIST g2 with
       | [] => []
       | _ :: _ =>
           EvMultiDownload (URL_AND_NAME_LIST g2) (parallel_downloads (CONFIG g2))
             :: opens
       end /\
     Forall is_open opens /\
     trace (final Mock.three_posts_run) =
       trace g3 ++ [EvDump (CONFIG (final Mock.three_posts_run))]).
Proof.
  destruct (approval_pushes_before_download Mock.three_posts) as [Hstep Hrun].
  split; [|split].
  - apply (Hstep (Mock.globals 2) "cat" ["cat"] [] zero_counters (Mock.post "cat" 0)).
    vm_compute. reflexivity.
  - eexists. vm_compute. reflexivity.
  - assert (exists sums, Mock.three_posts_run = Done sums (final Mock.three_posts_run))
      as [sums Ho] by (eexists; vm_compute; reflexivity).
    destruct (Hrun 1 ["cat"] [] (Mock.globals 2) sums (final Mock.three_posts_run) Ho)
      as (g1 & g2 & g3 & approved & opens & _ & _ & H).
    exists g2, g3, approved, opens. exact H.
Defined.

(** With a cache of capacity 2 and three approvals, the first fingerprint
    has been evicted when the update phase is over; the batch that follows
    still holds the task of that item and its file is requested. *)
Lemma first_fingerprint_evicted_before_batch :
  decide_item Mock.three_posts (Mock.globals 2) "cat" ["cat"] [] (Mock.post "cat" 0)
    = Approved /\
  URL_AND_NAME_LIST Mock.three_posts_updated =
    [("http://static/0", "downloads/cat-0.png");
     ("http://static/1", "downloads/cat-1.png");
     ("http://static/2", "downloads/cat-2.png")] /\
  Fifo.contains (md5 (Mock.post "cat" 0)) (CACHE Mock.three_posts_updated) = false /\
  batches (trace (final Mock.three_posts_run)) =
    [URL_AND_NAME_LIST Mock.three_posts_updated] /\
  trace (final (download Mock.three_posts tt Mock.three_posts_updated)) =
    trace Mock.three_posts_updated ++
    [EvMultiDownload (URL_AND_NAME_LIST Mock.three_posts_updated) 4;
     EvOpen "http://static/0"; EvOpen "http://static/1"; EvOpen "http://static/2"].
Proof.
  vm_compute. repeat split.
Qed.

(** ** Wrap-up (lines 198-206) *)

(** C6. On any day after the first one of the calendar, wrap-up writes the
    configuration with [last_run] set to the day before today, whatever the
    globals are when it starts: the number of items found, approved or
    downloaded plays no part. Once the update phase has completed, the run
    reaches wrap-up and completes, whichever downloads of the batch fail. *)
Theorem watermark_is_yesterday (h : Host) :
  (1 < today h <= Date.max_ordinal)%Z ->
  (forall g, exists g',
     wrap_up h tt g = Done tt g' /\
     config_txt g' = Some (CONFIG g') /\
     CONFIG g' = set_last_run (strftime h (today h - 1)) (CONFIG g) /\
     last_run (CONFIG g') = strftime h (today h - 1)) /\
  (forall fuel TAGS BLACKLIST g g1 sums g2,
     alias_blacklist h BLACKLIST g = Done tt g1 ->
     update h fuel TAGS g1 = Done sums g2 ->
     exists g',
       main h fuel TAGS BLACKLIST g = Done sums g' /\
       config_txt g' = Some (CONFIG g') /\
       last_run (CONFIG g') = strftime h (today h - 1)).
Proof.
  intros Htoday.
  assert (Date.fromordinal (today h - 1) = Ok (today h - 1)%Z) as Hyesterday
    by (apply fromordinal_in_range; lia).
  split.
  - intros g. eexists. rewrite wrap_up_spec, Hyesterday.
    split; [reflexivity|]. simpl. repeat split.
  - intros fuel TAGS BLACKLIST g g1 sums g2 Ha Hu.
    destruct (download_spec h g2) as (g3 & opens & Hd & _).
    eexists. rewrite (main_phases _ _ _ _ _ _ _ _ _ Ha Hu Hd).
    rewrite wrap_up_spec, Hyesterday.
    split; [reflexivity|]. simpl. split; reflexivity.
Qed.

(** Day 736000, three approved posts of which two cannot be fetched: the
    run completes and the configuration written has [last_run] at day
    735999. *)
Lemma watermark_after_failed_downloads :
  open_read Mock.three_posts "http://static/1" = Err (IOError "http://static/1") /\
  (exists g',
     wrap_up Mock.three_posts tt (Mock.globals 2) = Done tt g' /\
     config_txt g' = Some (CONFIG g') /\
     CONFIG g' = set_last_run "735999" (Mock.config 2) /\
     last_run (CONFIG g') = "735999") /\
  (exists g',
     Mock.three_posts_run =
       Done [mkSummary (Mock.posts "cat" 0 3) (mkCounters 0 0 0 0 3)] g' /\
     config_txt g' = Some (CONFIG g') /\
     last_run (CONFIG g') = "735999").
Proof.
  assert (1 < today Mock.three_posts <= Date.max_ordinal)%Z as Htoday
    by (vm_compute; split; [reflexivity | discriminate]).
  destruct (watermark_is_yesterday Mock.three_posts Htoday) as [Hwrap Hrun].
  split; [reflexivity|]. split.
  - apply (Hwrap (Mock.globals 2)).
  - apply (Hrun 1 ["cat"] [] (Mock.globals 2) (Mock.globals 2) _
                Mock.three_posts_updated).
    + vm_compute. reflexivity.
    + vm_compute. reflexivity.
Defined.

(** ** A transport failure during pagination (lines 115-127) *)

Lemma page_requests_open (h : Host) (search after : string) (first n : nat) :
  Forall is_open (page_requests h search after first n).
Proof.
  unfold page_requests. apply Forall_forall. intros ev Hev.
  apply list_elem_of_fmap in Hev as (p & -> & _). exact I.
Qed.

(** The loop started at page [first]: through the full pages [pages] and up
    to a page whose request raises. *)
Lemma accumulate_pages_raise (h : Host) (search : string) (e : exn) :
  forall (pages : list (list Post)) (fuel first : nat) (acc : list Post) (g : Globals),
    0 < MAX_RESULTS h ->
    (forall i page, pages !! i = Some page ->
       page_of h search (last_run (CONFIG g)) (first + i) = Ok page /\
       length page = MAX_RESULTS h) ->
    page_of h search (last_run (CONFIG g)) (first + length pages) = Err e ->
    length pages < fuel ->
    accumulate h fuel search first acc g =
    Raised e (log_events (page_requests h search (last_run (CONFIG g)) first
                                        (S (length pages))) g).
Proof.
  induction pages as [|pg pages IH]; intros fuel first acc g Hmax Hfull Hfail Hfuel.
  - destruct fuel as [|fuel]; [simpl in Hfuel; lia|].
    simpl length in Hfail. rewrite Nat.add_0_r in Hfail.
    simpl accumulate. rewrite bind_get, bind_get_posts, Hfail. reflexivity.
  - destruct fuel as [|fuel]; [simpl in Hfuel; lia|].
    destruct (Hfull 0 pg eq_refl) as [Hpg Hlen].
    rewrite Nat.add_0_r in Hpg.
    simpl accumulate. rewrite bind_get, bind_get_posts, Hpg.
    destruct pg as [|x pg]; [simpl in Hlen; lia|].
    rewrite Hlen, Nat.eqb_refl.
    rewrite (IH fuel (first + 1) _ _).
    + rewrite log_events_app, CONFIG_log_events.
      rewrite (page_requests_cons h search _ first (S (length pages))).
      reflexivity.
    + exact Hmax.
    + intros i page Hi. rewrite CONFIG_log_events.
      replace (first + 1 + i) with (first + S i) by lia.
      apply Hfull. exact Hi.
    + rewrite CONFIG_log_events.
      simpl length in Hfail.
      replace (first + 1 + length pages) with (first + S (length pages)) by lia.
      exact Hfail.
    + simpl in Hfuel. lia.
Qed.

Lemma map_each_raised {A B} (f : A -> M B) (done : list A) (x : A) (rest : list A) :
  forall g ys g1 e g2,
    map_each f done g = Done ys g1 ->
    f x g1 = Raised e g2 ->
    map_each f (done ++ x :: rest) g = Raised e g2.
Proof.
  induction done as [|d done IH]; intros g ys g1 e g2 Hdone Hx; simpl in *.
  - unfold ret in Hdone. inversion Hdone; subst.
    now rewrite (bind_raised _ _ _ _ _ Hx).
  - unfold bind at 1 in Hdone. unfold bind at 1.
    destruct (f d g) as [y g'|e' g'|g']; try discriminate.
    unfold bind at 1 in Hdone.
    destruct (map_each f done g') as [ys' g''|e' g''|g''] eqn:Hrest; try discriminate.
    unfold ret in Hdone. inversion Hdone; subst.
    now rewrite (bind_raised _ _ _ _ _ (IH _ _ _ _ _ Hrest Hx)).
Qed.

(** C8. A transport failure on a page request leaves [get_posts] as an
    exception, where an exhausted search returns an empty list. Nothing in
    the accumulation loop or around it catches the exception: it ends the
    accumulation of the group, the processing of the group and the whole run
    at the failing request. The candidates the group had found so far are
    dropped with the loop: the download list and the cache are as they were
    before the group, no batch is started and the configuration is not
    written. *)
Theorem pagination_failure_ends_run
    (h : Host) (fuel : nat) (BLACKLIST TAGS_done TAGS_rest : list string)
    (line : string) (g g1 g2 g3 : Globals) (sums : list Summary)
    (all_tags extra_tags : list string) (search_tags : string)
    (pages : list (list Post)) (e : exn) :
  alias_blacklist h BLACKLIST g = Done tt g1 ->
  update h fuel TAGS_done g1 = Done sums g2 ->
  expand_line h line g2 = Done (all_tags, search_tags, extra_tags) g3 ->
  0 < MAX_RESULTS h ->
  (forall i page, pages !! i = Some page ->
     page_of h search_tags (last_run (CONFIG g3)) (1 + i) = Ok page /\
     length page = MAX_RESULTS h) ->
  page_of h search_tags (last_run (CONFIG g3)) (1 + length pages) = Err e ->
  length pages < fuel ->
  exists g4,
    g4 = log_events (page_requests h search_tags (last_run (CONFIG g3)) 1
                                   (S (length pages))) g3 /\
    (forall g5,
       get_posts h search_tags (last_run (CONFIG g3)) (1 + length pages)
                 (MAX_RESULTS h) g5 =
       Raised e (log_events
                   [EvOpen (post_request search_tags (last_run (CONFIG g3))
                                         (1 + length pages) (MAX_RESULTS h))] g5)) /\
    accumulate h fuel search_tags 1 [] g3 = Raised e g4 /\
    update_line h fuel line g2 = Raised e g4 /\
    main h fuel (TAGS_done ++ line :: TAGS_rest) BLACKLIST g = Raised e g4 /\
    URL_AND_NAME_LIST g4 = URL_AND_NAME_LIST g2 /\
    CACHE g4 = CACHE g2 /\
    config_txt g4 = config_txt g2 /\
    batches (trace g4) = batches (trace g2).
Proof.
  intros Ha Hu Hexp Hmax Hfull Hfail Hfuel.
  eexists. split; [reflexivity|].
  pose proof (accumulate_pages_raise h search_tags e pages fuel 1 [] g3
                Hmax Hfull Hfail Hfuel) as Hacc.
  assert (update_line h fuel line g2 =
          Raised e (log_events (page_requests h search_tags (last_run (CONFIG g3)) 1
                                              (S (length pages))) g3)) as Hline.
  { unfold update_line.
    rewrite (bind_done _ _ _ _ _ Hexp).
    now rewrite (bind_raised _ _ _ _ _ Hacc). }
  split; [intros g5; now rewrite get_posts_spec, Hfail|].
  split; [exact Hacc|]. split; [exact Hline|].
  split.
  { unfold main. rewrite (bind_done _ _ _ _ _ Ha).
    apply bind_raised.
    unfold update in *. rewrite bind_modify in *.
    exact (map_each_raised _ _ _ _ _ _ _ _ _ Hu Hline). }
  destruct (requests_only_expand_line h line g2) as (evs & Hg3 & Hevs).
  rewrite Hexp in Hg3. simpl in Hg3. subst g3.
  simpl. repeat split.
  rewrite !batches_app, (batches_open evs Hevs).
  rewrite (batches_open _ (page_requests_open h search_tags _ 1 _)).
  now rewrite !app_nil_r.
Qed.

(** A page size of 2, a full first page and a second page that cannot be
    reached: the run ends with the transport error. *)
Lemma page2_unreachable_ends_run :
  exists g4,
    g4 = log_events [EvOpen (Mock.page "cat" 1 2); EvOpen (Mock.page "cat" 2 2)]
                    (Mock.globals 100) /\
    (forall g5,
       get_posts Mock.page2_unreachable "cat" "2016-01-01" 2 2 g5 =
       Raised (IOError (Mock.page "cat" 2 2))
              (log_events [EvOpen (Mock.page "cat" 2 2)] g5)) /\
    accumulate Mock.page2_unreachable 5 "cat" 1 [] (Mock.globals 100) =
      Raised (IOError (Mock.page "cat" 2 2)) g4 /\
    update_line Mock.page2_unreachable 5 "cat" (Mock.globals 100) =
      Raised (IOError (Mock.page "cat" 2 2)) g4 /\
    main Mock.page2_unreachable 5 ([] ++ "cat" :: ["dog"]) [] (Mock.globals 100) =
      Raised (IOError (Mock.page "cat" 2 2)) g4 /\
    URL_AND_NAME_LIST g4 = [] /\
    CACHE g4 = mkFifo 100 [] /\
    config_txt g4 = None /\
    batches (trace g4) = [].
Proof.
  apply (pagination_failure_ends_run Mock.page2_unreachable 5 [] [] ["dog"] "cat"
           (Mock.globals 100) (Mock.globals 100) (Mock.globals 100) (Mock.globals 100)
           [] ["cat"] [] "cat" [Mock.posts "cat" 0 2]
           (IOError (Mock.page "cat" 2 2))).
  - reflexivity.
  - reflexivity.
  - reflexivity.
  - simpl. lia.
  - intros [|i] page Hi; simpl in Hi; inversion Hi; subst.
    split; vm_compute; reflexivity.
  - vm_compute. reflexivity.
  - simpl. lia.
Defined.

(** The same run, step by step: page 1 returned two candidates, the request
    for page 2 failed, and the run neither kept the two candidates nor went
    on to the filter, the batch or the wrap-up: the group returned nothing
    and the run ended with the exception. *)
Lemma transport_failure_terminates_run :
  page_of Mock.page2_unreachable "cat" "2016-01-01" 1 = Ok (Mock.posts "cat" 0 2) /\
  page_of Mock.page2_unreachable "cat" "2016-01-01" 2 =
    Err (IOError (Mock.page "cat" 2 2)) /\
  returned (update_line Mock.page2_unreachable 5 "cat" (Mock.globals 100)) = None /\
  main Mock.page2_unreachable 5 ["cat"] [] (Mock.globals 100) =
    Raised (IOError (Mock.page "cat" 2 2))
           (log_events [EvOpen (Mock.page "cat" 1 2); EvOpen (Mock.page "cat" 2 2)]
                       (Mock.globals 100)).
Proof.
  vm_compute. repeat split.
Qed.

(* ===================================================================== *)
(** * Further properties of the two source files *)
(* ===================================================================== *)

(** ** The exits of the accumulation loop (lines 115-127) *)

(** The loop started at page [first]: through the full pages [pages] and up
    to a page that is empty or whose size is not [MAX_RESULTS]. *)
Lemma accumulate_until_odd_page (h : Host) (search : string) :
  forall (pages : list (list Post)) (last : list Post) (fuel first : nat)
         (acc : list Post) (g : Globals),
    (forall i page, pages !! i = Some page ->
       page_of h search (last_run (CONFIG g)) (first + i) = Ok page /\
       page <> [] /\ length page = MAX_RESULTS h) ->
    page_of h search (last_run (CONFIG g)) (first + length pages) = Ok last ->
    last = [] \/ length last <> MAX_RESULTS h ->
    length pages < fuel ->
    accumulate h fuel search first acc g =
    Done (acc ++ concat pages ++ last)
         (log_events (page_requests h search (last_run (CONFIG g)) first
                                    (S (length pages))) g).
Proof.
  induction pages as [|pg pages IH]; intros last fuel first acc g Hfull Hlast Hodd Hfuel.
  - destruct fuel as [|fuel]; [simpl in Hfuel; lia|].
    simpl length in Hlast. rewrite Nat.add_0_r in Hlast.
    simpl accumulate. rewrite bind_get, bind_get_posts, Hlast.
    destruct last as [|x last].
    + unfold ret. simpl. now rewrite app_nil_r.
    + destruct Hodd as [Hnil|Hne]; [discriminate|].
      destruct (Nat.eqb_spec (length (x :: last)) (MAX_RESULTS h)) as [Heq|_];
        [contradiction | reflexivity].
  - destruct fuel as [|fuel]; [simpl in Hfuel; lia|].
    destruct (Hfull 0 pg eq_refl) as (Hpg & Hne & Hlen).
    rewrite Nat.add_0_r in Hpg.
    simpl accumulate. rewrite bind_get, bind_get_posts, Hpg.
    destruct pg as [|x pg]; [contradiction|].
    rewrite Hlen, Nat.eqb_refl.
    rewrite (IH last fuel (first + 1) _ _).
    + rewrite log_events_app, CONFIG_log_events.
      rewrite (page_requests_cons h search _ first (S (length pages))).
      simpl concat. f_equal. simpl. now rewrite <- !app_assoc.
    + intros i page Hi. rewrite CONFIG_log_events.
      replace (first + 1 + i) with (first + S i) by lia.
      apply Hfull. exact Hi.
    + rewrite CONFIG_log_events.
      simpl length in Hlast.
      replace (first + 1 + length pages) with (first + S (length pages)) by lia.
      exact Hlast.
    + exact Hodd.
    + simpl in Hfuel. lia.
Qed.

(** X1. The loop goes on only after a page that is not empty and has exactly
    [MAX_RESULTS] posts: it stops at the first page that is empty or has any
    other size, a larger one included, keeps the posts of that page, and
    sends no request after it. With [MAX_RESULTS = 0] this is always the
    first page. *)
Theorem accumulate_stops_at_first_odd_page
    (h : Host) (search : string) (fuel : nat) (g : Globals)
    (pages : list (list Post)) (last : list Post) :
  (forall i page, pages !! i = Some page ->
     page_of h search (last_run (CONFIG g)) (1 + i) = Ok page /\
     page <> [] /\ length page = MAX_RESULTS h) ->
  page_of h search (last_run (CONFIG g)) (1 + length pages) = Ok last ->
  last = [] \/ length last <> MAX_RESULTS h ->
  length pages < fuel ->
  accumulate h fuel search 1 [] g =
    Done (concat pages ++ last)
         (log_events (page_requests h search (last_run (CONFIG g)) 1
                                    (S (length pages))) g) /\
  (MAX_RESULTS h = 0 -> pages = []).
Proof.
  intros Hfull Hlast Hodd Hfuel. split.
  - rewrite (accumulate_until_odd_page h search pages last fuel 1 [] g); auto.
  - intros Hzero. destruct pages as [|pg pages]; [reflexivity|].
    destruct (Hfull 0 pg eq_refl) as (_ & Hne & Hlen).
    destruct pg; [contradiction | simpl in Hlen; lia].
Qed.

(** A page size of 2 and pages of 2, 3 and 1 posts: the five posts of the
    first two pages are returned and page 3 is never requested. *)
Lemma accumulate_overfull_page :
  accumulate Scenario.overfull 5 "cat" 1 [] (Mock.globals 100) =
    Done (Mock.posts "cat" 0 2 ++ Mock.posts "cat" 2 3)
         (log_events [EvOpen (Mock.page "cat" 1 2); EvOpen (Mock.page "cat" 2 2)]
                     (Mock.globals 100)) /\
  (MAX_RESULTS Scenario.overfull = 0 -> [Mock.posts "cat" 0 2] = []).
Proof.
  pose proof (accumulate_stops_at_first_odd_page
                Scenario.overfull "cat" 5 (Mock.globals 100)
                [Mock.posts "cat" 0 2] (Mock.posts "cat" 2 3)) as H.
  destruct H as [Hrun Hzero].
  - intros [|i] page Hi; simpl in Hi; inversion Hi; subst; clear Hi.
    split; [vm_compute; reflexivity|]. split; [discriminate | reflexivity].
  - vm_compute. reflexivity.
  - right. vm_compute. lia.
  - simpl. lia.
  - split; [rewrite Hrun; reflexivity | exact Hzero].
Defined.

(** The loop started at page [first] when every page from there on is
    full. *)
Lemma accumulate_full_pages (h : Host) (search : string) :
  forall (fuel first : nat) (acc : list Post) (g : Globals),
    (forall p, first <= p ->
       exists page, page_of h search (last_run (CONFIG g)) p = Ok page /\
                    page <> [] /\ length page = MAX_RESULTS h) ->
    accumulate h fuel search first acc g =
    NoFuel (log_events (page_requests h search (last_run (CONFIG g)) first fuel) g).
Proof.
  induction fuel as [|fuel IH]; intros first acc g Hfull.
  - simpl. unfold no_fuel. now rewrite log_events_nil.
  - destruct (Hfull first (le_n _)) as (page & Hpage & Hne & Hlen).
    simpl accumulate. rewrite bind_get, bind_get_posts, Hpage.
    destruct page as [|x page]; [contradiction|].
    rewrite Hlen, Nat.eqb_refl.
    rewrite IH.
    + rewrite log_events_app, CONFIG_log_events.
      now rewrite (page_requests_cons h search _ first fuel).
    + intros p Hp. rewrite CONFIG_log_events. apply Hfull. lia.
Qed.

(** X2. The loop has no bound of its own: against a remote that answers
    every page with a full one it never returns. Whatever number of turns it
    is given, it has used them all, sending the requests for pages 1, 2, 3,
    ... in order, and is still accumulating. *)
Theorem accumulate_has_no_page_limit
    (h : Host) (search : string) (g : Globals) :
  (forall p, 1 <= p ->
     exists page, page_of h search (last_run (CONFIG g)) p = Ok page /\
                  page <> [] /\ length page = MAX_RESULTS h) ->
  forall fuel,
    accumulate h fuel search 1 [] g =
    NoFuel (log_events (page_requests h search (last_run (CONFIG g)) 1 fuel) g).
Proof.
  intros Hfull fuel. now apply accumulate_full_pages.
Qed.

(** A remote that always answers with the same two posts, page size 2:
    after seven turns the loop has requested pages 1 to 7 and goes on. *)
Lemma accumulate_endless :
  accumulate Scenario.endless 7 "cat" 1 [] (Mock.globals 100) =
  NoFuel (log_events (page_requests Scenario.endless "cat" "2016-01-01" 1 7)
                     (Mock.globals 100)).
Proof.
  apply (accumulate_has_no_page_limit Scenario.endless "cat" (Mock.globals 100)).
  intros p _. exists (Mock.posts "cat" 0 2).
  split; [reflexivity|]. split; [discriminate | reflexivity].
Defined.

(** ** What discovery leaves alone (lines 102-127, [lib/api.py]) *)

Lemma requests_only_sent {A} (m : M A) (g : Globals) :
  requests_only m -> only_requests_sent g (final (m g)).
Proof.
  intros Hm. destruct (Hm g) as (evs & -> & Hevs).
  unfold only_requests_sent. simpl. repeat split. exists evs. split; auto.
Qed.

(** X3. Expanding a tag line and accumulating its pages talk to the remote
    and do nothing else: however they end (result, exception, loop still
    running), the cache, the download list, the aliased blacklist, the
    configuration and the disk are as before, and the trace has only gained
    requests. The same holds for [get_posts] and [get_alias] alone. *)
Theorem discovery_only_sends_requests
    (h : Host) (fuel : nat) (line search after tag : string) (first p n : nat)
    (acc : list Post) (g : Globals) :
  only_requests_sent g (final (expand_line h line g)) /\
  only_requests_sent g (final (accumulate h fuel search first acc g)) /\
  only_requests_sent g (final (get_posts h search after p n g)) /\
  only_requests_sent g (final (get_alias h tag g)).
Proof.
  split; [|split; [|split]]; apply requests_only_sent.
  - apply requests_only_expand_line.
  - apply requests_only_accumulate.
  - apply requests_only_get_posts.
  - apply requests_only_get_alias.
Qed.

(** ** [get_posts] on a malformed page (lines 14-29 of [lib/api.py]) *)

Lemma rmapM_ok {A B} (f : A -> result B) (l : list A) :
  forall ys, rmapM f l = Ok ys -> Forall2 (fun x y => f x = Ok y) l ys.
Proof.
  induction l as [|x l IH]; intros ys Hrun; simpl in Hrun.
  - inversion Hrun. constructor.
  - destruct (f x) as [y|e] eqn:Hx; simpl in Hrun; [|discriminate].
    destruct (rmapM f l) as [ys'|e]; simpl in Hrun; [|discriminate].
    inversion Hrun; subst. constructor; [exact Hx | now apply IH].
Qed.

Lemma rmapM_err {A B} (f : A -> result B) (l : list A) (x : A) (e : exn) :
  x ∈ l -> f x = Err e -> exists e', rmapM f l = Err e'.
Proof.
  intros Hin Hx. induction l as [|y l IH]; [inversion Hin|].
  simpl. apply elem_of_cons in Hin as [<-|Hin].
  - rewrite Hx. simpl. eauto.
  - destruct (f y) as [z|e1]; simpl; [|eauto].
    destruct (IH Hin) as (e' & ->). simpl. eauto.
Qed.

Lemma post_of_json_missing_key (kvs : list (string * json)) (key : string) :
  key ∈ post_keys -> Json.assoc key kvs = None ->
  exists e, post_of_json (JObj kvs) = Err e.
Proof.
  intros Hkey Hnone. unfold post_of_json, Json.getitem.
  unfold post_keys in Hkey.
  repeat (apply elem_of_cons in Hkey as [->|Hkey]);
    [..|inversion Hkey]; rewrite ?Hnone;
    repeat match goal with
           | |- context [Json.assoc ?k kvs] =>
               destruct (Json.assoc k kvs) as [[| | | | |]|]; simpl;
               try (eexists; reflexivity)
           end;
    simpl; try (eexists; reflexivity).
Qed.

(** X4. [get_posts] converts a page as a whole. When it returns, it returns
    one [Post] per element of the decoded array, in the order of the array.
    When one element lacks any of the keys [file_url], [id], [md5],
    [file_ext], [tags], the call raises and none of the posts of the page is
    returned, the well-formed ones included; when that element comes first
    and lacks [file_url], the exception is [KeyError file_url]. The request
    has been sent in every case. *)
Theorem get_posts_all_or_nothing
    (h : Host) (search after : string) (p : nat) (g : Globals)
    (body : string) (items : list json) :
  open_read h (post_request search after p (MAX_RESULTS h)) = Ok body ->
  loads h body = Ok (JArr items) ->
  (forall posts g',
     get_posts h search after p (MAX_RESULTS h) g = Done posts g' ->
     Forall2 (fun j post => post_of_json j = Ok post) items posts /\
     g' = log_events [EvOpen (post_request search after p (MAX_RESULTS h))] g) /\
  (forall kvs key,
     JObj kvs ∈ items -> key ∈ post_keys -> Json.assoc key kvs = None ->
     exists e,
       get_posts h search after p (MAX_RESULTS h) g =
       Raised e (log_events [EvOpen (post_request search after p (MAX_RESULTS h))] g)) /\
  (forall kvs rest,
     items = JObj kvs :: rest -> Json.assoc "file_url" kvs = None ->
     get_posts h search after p (MAX_RESULTS h) g =
     Raised (KeyError "file_url")
            (log_events [EvOpen (post_request search after p (MAX_RESULTS h))] g)).
Proof.
  intros Hopen Hloads.
  assert (page_of h search after p = rmapM post_of_json items) as Hpage.
  { unfold page_of. rewrite Hopen. simpl. rewrite Hloads. reflexivity. }
  split; [|split].
  - intros posts g' Hrun. rewrite get_posts_spec, Hpage in Hrun.
    destruct (rmapM post_of_json items) as [posts'|e] eqn:Hmap; [|discriminate].
    inversion Hrun; subst. split; [now apply rmapM_ok | reflexivity].
  - intros kvs key Hin Hkey Hnone.
    destruct (post_of_json_missing_key kvs key Hkey Hnone) as (e & He).
    destruct (rmapM_err post_of_json items (JObj kvs) e Hin He) as (e' & He').
    exists e'. now rewrite get_posts_spec, Hpage, He'.
  - intros kvs rest -> Hnone.
    rewrite get_posts_spec, Hpage. simpl.
    unfold post_of_json at 1, Json.getitem. rewrite Hnone. reflexivity.
Qed.

(** A page of two elements whose second has no [md5]: the call raises, the
    first post is not returned. *)
Lemma get_posts_broken_post :
  exists e,
    get_posts Scenario.broken_post "cat" "2016-01-01" 1 50 (Mock.globals 2) =
    Raised e (log_events [EvOpen (Mock.page "cat" 1 50)] (Mock.globals 2)).
Proof.
  destruct (get_posts_all_or_nothing Scenario.broken_post "cat" "2016-01-01" 1
              (Mock.globals 2) "p1"
              [Mock.json_of_post (Mock.post "cat" 0);
               JObj [("file_url", JStr "http://static/1"); ("id", JNum 1);
                     ("file_ext", JStr "png"); ("tags", JStr "cat")]])
    as (_ & Hmissing & _).
  - reflexivity.
  - reflexivity.
  - apply (Hmissing [("file_url", JStr "http://static/1"); ("id", JNum 1);
                     ("file_ext", JStr "png"); ("tags", JStr "cat")] "md5").
    + apply elem_of_cons. right. apply elem_of_cons. left. reflexivity.
    + unfold post_keys. repeat (apply elem_of_cons; (left; reflexivity) || right).
    + reflexivity.
Defined.

(** ** What [get_alias] sends and returns (lines 35-64 of [lib/api.py]) *)

(** The outcomes of a call of [get_alias]. *)
Lemma get_alias_outcomes (h : Host) (tag : string) (g : Globals) :
  final (get_alias h tag g) = log_events [EvOpen (alias_request tag)] g /\
  (forall alias g', get_alias h tag g = Done alias g' -> alias_or_empty tag alias) /\
  (forall e, open_read h (alias_request tag) = Err e ->
             get_alias h tag g =
             Raised e (log_events [EvOpen (alias_request tag)] g)).
Proof.
  rewrite get_alias_spec. split; [|split].
  - destruct (alias_records h tag) as [[|u us]|e]; try reflexivity.
    destruct (String.eqb tag (name u)); reflexivity.
  - intros alias g' Hrun.
    destruct (alias_records h tag) as [[|u us]|e]; try discriminate.
    + inversion Hrun. now left.
    + destruct (String.eqb tag (name u)); [discriminate|].
      inversion Hrun. now right.
  - intros e Hopen. unfold alias_records. rewrite Hopen. reflexivity.
Qed.

(** X5. A call of [get_alias] sends exactly one request, the query of the
    alias index, however it ends: the request by alias identifier is never
    sent. When the call returns, it returns the empty string or the tag it
    was given, never another name. A transport failure of the query is not
    turned into a result: the call raises it. *)
Theorem get_alias_sends_one_request (h : Host) (tag : string) (g : Globals) :
  final (get_alias h tag g) = log_events [EvOpen (alias_request tag)] g /\
  (forall alias g', get_alias h tag g = Done alias g' -> alias_or_empty tag alias) /\
  (forall e, open_read h (alias_request tag) = Err e ->
             get_alias h tag g =
             Raised e (log_events [EvOpen (alias_request tag)] g)).
Proof. apply get_alias_outcomes. Qed.

(** The alias query for [dog] fails in transport: the call raises. The one
    for [f] is answered: [f] comes back. *)
Lemma get_alias_dog_unreachable :
  alias_or_empty "f" "f" /\
  get_alias Mock.tagged "dog" (Mock.globals 2) =
    Raised (IOError (alias_request "dog"))
           (log_events [EvOpen (alias_request "dog")] (Mock.globals 2)).
Proof.
  destruct (get_alias_sends_one_request Mock.tagged "f" (Mock.globals 2))
    as (_ & Hrange & _).
  destruct (get_alias_sends_one_request Mock.tagged "dog" (Mock.globals 2))
    as (_ & _ & Hfail).
  split.
  - apply (Hrange "f" (log_events [EvOpen (alias_request "f")] (Mock.globals 2))).
    reflexivity.
  - apply Hfail. reflexivity.
Defined.

(** Aliasing a list of tags, when every call returns. *)
Lemma map_each_get_alias (h : Host) (l : list string) :
  forall g ys g',
    map_each (get_alias h) l g = Done ys g' ->
    Forall2 alias_or_empty l ys /\ g' = log_events (alias_requests l) g.
Proof.
  induction l as [|t l IH]; intros g ys g' Hrun; simpl in Hrun.
  - unfold ret in Hrun. inversion Hrun; subst.
    split; [constructor | symmetry; apply log_events_nil].
  - unfold bind at 1 in Hrun.
    destruct (get_alias h t g) as [a g1|e g1|g1] eqn:Ht; try discriminate.
    unfold bind at 1 in Hrun.
    destruct (map_each (get_alias h) l g1) as [ys' g2|e g2|g2] eqn:Hl; try discriminate.
    unfold ret in Hrun. inversion Hrun; subst. clear Hrun.
    destruct (get_alias_outcomes h t g) as (Hfinal & Hrange & _).
    rewrite Ht in Hfinal. simpl in Hfinal. subst g1.
    destruct (IH _ _ _ Hl) as (Hall & ->).
    split; [constructor; [exact (Hrange a _ Ht) | exact Hall]|].
    now rewrite log_events_app.
Qed.

Lemma filter_not_in_short_prefix (l : list string) (n : nat) :
  length l <= n -> filter (fun t => t ∉ take n l) l = [].
Proof.
  intros Hlen. rewrite take_ge by assumption.
  apply filter_none. apply Forall_forall. intros t Ht Hn. exact (Hn Ht).
Qed.

(** X6. Expanding a line sends one alias query per token that is not among
    the first five, in the order of the line and once per occurrence, and
    nothing else; each extra tag is the empty string or the token it stands
    for. A line of at most five tokens sends nothing. *)
Theorem expand_line_requests
    (h : Host) (line search_tags : string) (all_tags extra_tags : list string)
    (g g' : Globals) :
  expand_line h line g = Done (all_tags, search_tags, extra_tags) g' ->
  g' = log_events
         (alias_requests
            (filter (fun t => t ∉ take 5 (Py.split line)) (Py.split line))) g /\
  Forall2 alias_or_empty
          (filter (fun t => t ∉ take 5 (Py.split line)) (Py.split line)) extra_tags /\
  (length (Py.split line) <= 5 -> g' = g /\ extra_tags = []).
Proof.
  intros Hrun.
  destruct (le_lt_dec (length (Py.split line)) 5) as [Hle|Hgt].
  - rewrite expand_line_short in Hrun by assumption.
    inversion Hrun; subst.
    rewrite filter_not_in_short_prefix by assumption.
    split; [symmetry; apply log_events_nil|]. split; [constructor | auto].
  - destruct (expand_line_long h line Hgt) as (search & _ & Heq).
    rewrite Heq in Hrun. unfold bind in Hrun.
    destruct (map_each _ _ g) as [ys g1|e g1|g1] eqn:Hmap; try discriminate.
    unfold ret in Hrun. inversion Hrun; subst. clear Hrun.
    destruct (map_each_get_alias _ _ _ _ _ Hmap) as (Hall & ->).
    split; [reflexivity|]. split; [exact Hall | lia].
Qed.

(** The line [a b c d e f a g f]: the queries are those for [f], [g] and [f]
    again; [a], which is among the first five, is not queried. *)
Lemma expand_line_requests_example :
  log_events [EvOpen (alias_request "f"); EvOpen (alias_request "g");
              EvOpen (alias_request "f")] (Mock.globals 2) =
  log_events
    (alias_requests
       (filter (fun t => t ∉ take 5 (Py.split "a b c d e f a g f"))
               (Py.split "a b c d e f a g f")))
    (Mock.globals 2) /\
  Forall2 alias_or_empty
          (filter (fun t => t ∉ take 5 (Py.split "a b c d e f a g f"))
                  (Py.split "a b c d e f a g f"))
          ["f"; "g"; "f"] /\
  (length (Py.split "a b c d e f a g f") <= 5 ->
   log_events [EvOpen (alias_request "f"); EvOpen (alias_request "g");
               EvOpen (alias_request "f")] (Mock.globals 2) = Mock.globals 2 /\
   ["f"; "g"; "f"] = []).
Proof.
  apply (expand_line_requests Mock.tagged "a b c d e f a g f" "a b c d e"
           ["a"; "b"; "c"; "d"; "e"; "f"; "a"; "g"; "f"] ["f"; "g"; "f"]
           (Mock.globals 2)).
  vm_compute. reflexivity.
Defined.

(** ** Aliasing the blacklist (lines 72-75) *)

Lemma for_each_app {A B} (f : B -> A -> M B) (l1 l2 : list A) :
  forall acc g,
    for_each f (l1 ++ l2) acc g =
    bind (for_each f l1 acc) (fun acc' => for_each f l2 acc') g.
Proof.
  induction l1 as [|x l1 IH]; intros acc g; simpl.
  - reflexivity.
  - unfold bind.
    destruct (f acc x g) as [b g1|e g1|g1]; try reflexivity.
    rewrite IH. reflexivity.
Qed.

(** The loop of lines 74-75 from a blacklist aliased so far. *)
Lemma alias_blacklist_loop (h : Host) (BLACKLIST : list string) :
  forall g g',
    for_each (fun _ tag =>
                alias <- get_alias h tag ;;
                modify (fun g => set_ALIASED_BLACKLIST (ALIASED_BLACKLIST g ++ [alias]) g))
             BLACKLIST tt g = Done tt g' ->
    exists aliases,
      Forall2 alias_or_empty BLACKLIST aliases /\
      g' = log_events (alias_requests BLACKLIST)
             (set_ALIASED_BLACKLIST (ALIASED_BLACKLIST g ++ aliases) g).
Proof.
  induction BLACKLIST as [|tag BL IH]; intros g g' Hrun; simpl in Hrun.
  - unfold ret in Hrun. inversion Hrun; subst.
    exists []. split; [constructor|].
    rewrite app_nil_r, log_events_nil. now destruct g'.
  - unfold bind at 1 2 in Hrun.
    destruct (get_alias h tag g) as [a g1|e g1|g1] eqn:Ht; try discriminate.
    unfold modify at 1 in Hrun.
    destruct (get_alias_outcomes h tag g) as (Hfinal & Hrange & _).
    rewrite Ht in Hfinal. simpl in Hfinal. subst g1.
    destruct (IH _ _ Hrun) as (aliases & Hall & ->).
    exists (a :: aliases).
    split; [constructor; [exact (Hrange a _ Ht) | exact Hall]|].
    unfold log_events, set_trace, set_ALIASED_BLACKLIST. simpl.
    now rewrite <- !app_assoc.
Qed.

(** The aliasing of the blacklist, when it completes. *)
Lemma alias_blacklist_done
    (h : Host) (BLACKLIST : list string) (g g' : Globals) :
  alias_blacklist h BLACKLIST g = Done tt g' ->
  Forall2 alias_or_empty BLACKLIST (ALIASED_BLACKLIST g') /\
  g' = log_events (alias_requests BLACKLIST)
         (set_ALIASED_BLACKLIST (ALIASED_BLACKLIST g') g).
Proof.
  unfold alias_blacklist. rewrite bind_modify. intros Hrun.
  destruct (alias_blacklist_loop h BLACKLIST _ _ Hrun) as (aliases & Hall & ->).
  simpl. split; [exact Hall | reflexivity].
Qed.

(** X7. When the aliasing of the blacklist completes, [ALIASED_BLACKLIST]
    has one entry per entry of the blacklist, in the same order, each one the
    empty string or the blacklist entry itself; what the variable held
    before is discarded. One alias query per entry has been sent, in order,
    and nothing else has changed. *)
Theorem alias_blacklist_entries
    (h : Host) (BLACKLIST : list string) (g g' : Globals) :
  alias_blacklist h BLACKLIST g = Done tt g' ->
  Forall2 alias_or_empty BLACKLIST (ALIASED_BLACKLIST g') /\
  g' = log_events (alias_requests BLACKLIST)
         (set_ALIASED_BLACKLIST (ALIASED_BLACKLIST g') g).
Proof. apply alias_blacklist_done. Qed.

(** The blacklist [bad; zzz]: [bad] is kept, the unknown [zzz] becomes the
    empty string. *)
Lemma alias_blacklist_bad_zzz :
  Forall2 alias_or_empty ["bad"; "zzz"] ["bad"; ""] /\
  log_events [EvOpen (alias_request "bad"); EvOpen (alias_request "zzz")]
             (set_ALIASED_BLACKLIST ["bad"; ""] (Mock.globals 2)) =
  log_events (alias_requests ["bad"; "zzz"])
             (set_ALIASED_BLACKLIST ["bad"; ""] (Mock.globals 2)).
Proof.
  apply (alias_blacklist_entries Mock.tagged ["bad"; "zzz"] (Mock.globals 2)
           (log_events [EvOpen (alias_request "bad"); EvOpen (alias_request "zzz")]
                       (set_ALIASED_BLACKLIST ["bad"; ""] (Mock.globals 2)))).
  vm_compute. reflexivity.
Defined.

(** X8. A transport failure while the blacklist is aliased ends the run
    there: the exception leaves [main], no tag line has been looked at, no
    search request has been sent, and only the alias queries up to the
    failing one are in the trace. The tag is not kept unaliased. *)
Theorem blacklist_alias_failure_ends_run
    (h : Host) (fuel : nat) (TAGS BL_done BL_rest : list string) (tag : string)
    (g g1 : Globals) (e : exn) :
  alias_blacklist h BL_done g = Done tt g1 ->
  open_read h (alias_request tag) = Err e ->
  alias_blacklist h (BL_done ++ tag :: BL_rest) g =
    Raised e (log_events [EvOpen (alias_request tag)] g1) /\
  main h fuel TAGS (BL_done ++ tag :: BL_rest) g =
    Raised e (log_events [EvOpen (alias_request tag)] g1) /\
  trace (log_events [EvOpen (alias_request tag)] g1) =
    trace g ++ alias_requests (BL_done ++ [tag]).
Proof.
  intros Hdone Hfail.
  assert (alias_blacklist h (BL_done ++ tag :: BL_rest) g =
          Raised e (log_events [EvOpen (alias_request tag)] g1)) as Hraise.
  { unfold alias_blacklist in *. rewrite bind_modify in *.
    rewrite for_each_app. rewrite (bind_done _ _ _ _ _ Hdone).
    simpl for_each. apply bind_raised. apply bind_raised.
    apply (get_alias_outcomes h tag g1). exact Hfail. }
  split; [exact Hraise|]. split.
  - unfold main. now apply bind_raised.
  - destruct (alias_blacklist_done h BL_done g g1 Hdone) as (_ & Hg1).
    rewrite Hg1. unfold alias_requests. simpl.
    rewrite map_app, <- app_assoc. reflexivity.
Qed.

(** The blacklist [bad; dog; zzz] where the query for [dog] cannot be sent:
    the run ends after the queries for [bad] and [dog]. *)
Lemma blacklist_dog_unreachable :
  alias_blacklist Mock.tagged ([ "bad" ] ++ "dog" :: ["zzz"]) (Mock.globals 2) =
    Raised (IOError (alias_request "dog"))
           (log_events [EvOpen (alias_request "dog")]
              (log_events [EvOpen (alias_request "bad")]
                 (set_ALIASED_BLACKLIST ["bad"] (Mock.globals 2)))) /\
  main Mock.tagged 1 ["a b c d e"] (["bad"] ++ "dog" :: ["zzz"]) (Mock.globals 2) =
    Raised (IOError (alias_request "dog"))
           (log_events [EvOpen (alias_request "dog")]
              (log_events [EvOpen (alias_request "bad")]
                 (set_ALIASED_BLACKLIST ["bad"] (Mock.globals 2)))) /\
  trace (log_events [EvOpen (alias_request "dog")]
           (log_events [EvOpen (alias_request "bad")]
              (set_ALIASED_BLACKLIST ["bad"] (Mock.globals 2)))) =
    trace (Mock.globals 2) ++ alias_requests (["bad"] ++ ["dog"]).
Proof.
  apply (blacklist_alias_failure_ends_run Mock.tagged 1 ["a b c d e"] ["bad"] ["zzz"]
           "dog" (Mock.globals 2)
           (log_events [EvOpen (alias_request "bad")]
              (set_ALIASED_BLACKLIST ["bad"] (Mock.globals 2)))
           (IOError (alias_request "dog"))).
  - vm_compute. reflexivity.
  - reflexivity.
Defined.

(** ** The required-tag check accepts any one extra tag (line 145) *)

(** X9. The check of line 145 asks for one extra tag, not for all of them:
    an item that has at least one of the extra tags is never
    MissingRequiredTag, whichever other extra tags it lacks. On a line of at
    most five tokens no item is MissingRequiredTag. *)
Theorem one_extra_tag_suffices (h : Host) (g : Globals) (line : string)
    (all_tags extra_tags : list string) (item : Post) :
  (forall t, t ∈ extra_tags -> t ∈ Py.split (tags item) ->
     decide_item h g line all_tags extra_tags item <> MissingRequiredTag) /\
  (length all_tags <= 5 ->
     decide_item h g line all_tags extra_tags item <> MissingRequiredTag).
Proof.
  pose proof (decide_item_cases h g line all_tags extra_tags item) as Hd.
  split.
  - intros t Hextra Hitem Heq. rewrite Heq in Hd.
    destruct Hd as [_ Hdisj]. exact (Hdisj t Hextra Hitem).
  - intros Hlen Heq. rewrite Heq in Hd. destruct Hd as [Hlong _]. lia.
Qed.

(** The extra tags [f] and [g] and a post tagged [a b c d e f]: it has [f],
    lacks [g], and is not MissingRequiredTag. *)
Lemma one_of_two_extra_tags :
  decide_item Mock.tagged (Mock.globals 2) "a b c d e f g"
              ["a"; "b"; "c"; "d"; "e"; "f"; "g"] ["f"; "g"]
              (Mock.post "a b c d e f" 0) <> MissingRequiredTag.
Proof.
  destruct (one_extra_tag_suffices Mock.tagged (Mock.globals 2) "a b c d e f g"
              ["a"; "b"; "c"; "d"; "e"; "f"; "g"] ["f"; "g"]
              (Mock.post "a b c d e f" 0)) as [Hone _].
  apply (Hone "f").
  - apply elem_of_cons. left. reflexivity.
  - apply (bool_decide_unpack _). vm_compute. exact I.
Defined.

(** ** [download_post] creates the file first (lines 31-33 of [lib/api.py]) *)



(** ** The effect of one tag line (lines 88-179) *)

Lemma after_approvals_nil (h : Host) (line : string) (g : Globals) :
  after_approvals h line [] g = g.
Proof.
  destruct g. unfold after_approvals, log_events, set_trace, set_CACHE,
    set_URL_AND_NAME_LIST, push_all. simpl. now rewrite !app_nil_r.
Qed.

Lemma after_approvals_cons (h : Host) (line : string) (item : Post)
    (approved : list Post) (g : Globals) :
  after_approvals h line approved
    (log_events [EvPush (md5 item)]
       (set_CACHE (Fifo.push (md5 item) (CACHE g))
          (set_URL_AND_NAME_LIST
             (URL_AND_NAME_LIST g ++ [task_of h (CONFIG g) line item]) g))) =
  after_approvals h line (item :: approved) g.
Proof.
  unfold after_approvals, log_events, set_trace, set_CACHE, set_URL_AND_NAME_LIST,
    push_all. simpl. now rewrite <- !app_assoc.
Qed.

Lemma after_approvals_log (h : Host) (line : string) (approved : list Post)
    (evs : list Event) (g : Globals) :
  after_approvals h line approved (log_events evs g) =
  log_events (evs ++ map (fun item => EvPush (md5 item)) approved)
    (set_CACHE (push_all approved (CACHE g))
       (set_URL_AND_NAME_LIST
          (URL_AND_NAME_LIST g ++ map (task_of h (CONFIG g) line) approved) g)).
Proof.
  unfold after_approvals, log_events, set_trace, set_CACHE, set_URL_AND_NAME_LIST.
  simpl. now rewrite <- !app_assoc.
Qed.

(** The loop always completes, and its whole effect is the approval of a
    subsequence of the items. *)
Lemma filter_loop_effect (h : Host) (line : string) (all_tags extra_tags : list string)
    (items : list Post) :
  forall c g, exists c' approved,
    for_each (filter_item h line all_tags extra_tags) items c g =
      Done c' (after_approvals h line approved g) /\
    sublist approved items /\
    will_download c' = will_download c + length approved.
Proof.
  induction items as [|item items IH]; intros c g.
  - exists c, []. simpl. rewrite after_approvals_nil.
    split; [reflexivity|]. split; [constructor | lia].
  - simpl for_each.
    destruct (decide_item h g line all_tags extra_tags item) eqn:Hd.
    1-4: destruct (filter_item_skipped h line all_tags extra_tags c item g)
           as (c1 & Hstep & _ & Hwill); [rewrite Hd; discriminate|];
         destruct (IH c1 g) as (c' & approved & Hrun & Hsub & Hwill');
         exists c', approved;
         rewrite (bind_done _ _ _ _ _ Hstep);
         (split; [exact Hrun|]);
         (split; [now apply sublist_cons | lia]).
    pose proof (filter_item_approved h line all_tags extra_tags c item g Hd) as Hstep.
    rewrite (bind_done _ _ _ _ _ Hstep).
    match goal with
    | |- context [for_each _ items ?c1 ?g1] =>
        destruct (IH c1 g1) as (c' & approved & Hrun & Hsub & Hwill')
    end.
    exists c', (item :: approved).
    rewrite Hrun, after_approvals_cons.
    split; [reflexivity|]. split; [now apply sublist_skip|].
    simpl in *. lia.
Qed.

(** X11. A tag line that completes has done two things only. It has sent
    requests (alias queries, then pages). Then, for a subsequence of the
    candidates it found, taken in the order they were retrieved, it has
    appended their tasks to [URL_AND_NAME_LIST] and pushed their
    fingerprints to the cache, in that order. The number of these items is
    [will_download]; the disk, the configuration and the blacklist are
    untouched. *)
Theorem update_line_effect (h : Host) (fuel : nat) (line : string)
    (g g' : Globals) (s : Summary) :
  update_line h fuel line g = Done s g' ->
  exists approved evs,
    sublist approved (potential_downloads s) /\
    length approved = will_download (counters s) /\
    Forall is_open evs /\
    g' = after_approvals h line approved (log_events evs g).
Proof.
  unfold update_line. intros Hrun.
  unfold bind at 1 in Hrun.
  destruct (expand_line h line g) as [[[all_tags search_tags] extra_tags] g1|e g1|g1]
    eqn:Hexp; try discriminate.
  unfold bind at 1 in Hrun.
  destruct (accumulate h fuel search_tags 1 [] g1) as [pd g2|e g2|g2] eqn:Hacc;
    try discriminate.
  destruct (requests_only_expand_line h line g) as (evs1 & Hg1 & Hevs1).
  rewrite Hexp in Hg1. simpl in Hg1. subst g1.
  destruct (requests_only_accumulate h search_tags fuel 1 [] (log_events evs1 g))
    as (evs2 & Hg2 & Hevs2).
  rewrite Hacc in Hg2. simpl in Hg2. subst g2.
  rewrite log_events_app in Hrun.
  destruct (0 <? length pd)%nat.
  - destruct (filter_loop_effect h line all_tags extra_tags pd zero_counters
                (log_events (evs1 ++ evs2) g))
      as (c' & approved & Hloop & Hsub & Hwill).
    rewrite (bind_done _ _ _ _ _ Hloop) in Hrun.
    unfold ret in Hrun. inversion Hrun; subst.
    exists approved, (evs1 ++ evs2). simpl in *.
    split; [exact Hsub|]. split; [lia|].
    split; [apply Forall_app; auto | reflexivity].
  - unfold ret in Hrun. inversion Hrun; subst.
    exists [], (evs1 ++ evs2). simpl.
    split; [apply sublist_nil_l|]. split; [reflexivity|].
    split; [apply Forall_app; auto | now rewrite after_approvals_nil].
Qed.

(** The line [a b c d e] with [bad] blacklisted: of the two candidates the
    first is approved, after one page request. *)
Lemma update_line_effect_example :
  exists approved evs,
    sublist approved [Mock.post "a b c d e" 0; Mock.post "a b c d e bad" 1] /\
    length approved = 1 /\
    Forall is_open evs /\
    log_events [EvOpen (Mock.page "a b c d e" 1 50); EvPush "md5-0"]
      (set_CACHE (mkFifo 2 ["md5-0"])
         (set_URL_AND_NAME_LIST
            [("http://static/0", "downloads/a b c d e-0.png")] Mock.blacklisting)) =
    after_approvals Mock.tagged "a b c d e" approved (log_events evs Mock.blacklisting).
Proof.
  apply (update_line_effect Mock.tagged 1 "a b c d e" Mock.blacklisting _
           (mkSummary [Mock.post "a b c d e" 0; Mock.post "a b c d e bad" 1]
                      (mkCounters 0 1 0 0 1))).
  vm_compute. reflexivity.
Defined.

(** ** Nothing is downloaded or written before every line is done *)

Lemma nothing_downloaded_refl (g : Globals) : nothing_downloaded g g.
Proof. repeat split. Qed.

Lemma nothing_downloaded_trans (g1 g2 g3 : Globals) :
  nothing_downloaded g1 g2 -> nothing_downloaded g2 g3 -> nothing_downloaded g1 g3.
Proof.
  intros (Hf1 & Ht1 & Hc1 & Hb1) (Hf2 & Ht2 & Hc2 & Hb2).
  unfold nothing_downloaded. rewrite Hf2, Ht2, Hc2, Hb2. auto.
Qed.

Lemma keeps_ret {A} (a : A) : keeps nothing_downloaded (ret a).
Proof. intros g. apply nothing_downloaded_refl. Qed.

Lemma keeps_bind {A B} (m : M A) (k : A -> M B) :
  keeps nothing_downloaded m -> (forall a, keeps nothing_downloaded (k a)) ->
  keeps nothing_downloaded (bind m k).
Proof.
  intros Hm Hk g. specialize (Hm g). unfold bind.
  destruct (m g) as [a g1|e g1|g1]; simpl in Hm; simpl; try exact Hm.
  exact (nothing_downloaded_trans _ _ _ Hm (Hk a g1)).
Qed.

Lemma keeps_for_each {A B} (f : B -> A -> M B) (l : list A) :
  (forall b a, keeps nothing_downloaded (f b a)) ->
  forall acc, keeps nothing_downloaded (for_each f l acc).
Proof.
  intros Hf. induction l as [|x l IH]; intros acc; simpl.
  - apply keeps_ret.
  - apply keeps_bind; [apply Hf | exact IH].
Qed.

Lemma keeps_map_each {A B} (f : A -> M B) (l : list A) :
  (forall a, keeps nothing_downloaded (f a)) ->
  keeps nothing_downloaded (map_each f l).
Proof.
  intros Hf. induction l as [|x l IH]; simpl.
  - apply keeps_ret.
  - apply keeps_bind; [apply Hf|]. intros y.
    apply keeps_bind; [exact IH|]. intros ys. apply keeps_ret.
Qed.

Lemma keeps_requests_only {A} (m : M A) :
  requests_only m -> keeps nothing_downloaded m.
Proof.
  intros Hm g. destruct (Hm g) as (evs & -> & Hevs).
  unfold nothing_downloaded. simpl.
  rewrite batches_app, (batches_open evs Hevs), app_nil_r. auto.
Qed.

Lemma batches_pushes (items : list Post) :
  batches (map (fun item => EvPush (md5 item)) items) = [].
Proof. induction items as [|item items IH]; [reflexivity | exact IH]. Qed.

Lemma keeps_filter_loop (h : Host) (line : string) (all_tags extra_tags : list string)
    (items : list Post) (c : Counters) :
  keeps nothing_downloaded (for_each (filter_item h line all_tags extra_tags) items c).
Proof.
  intros g.
  destruct (filter_loop_effect h line all_tags extra_tags items c g)
    as (c' & approved & -> & _).
  unfold nothing_downloaded. simpl.
  rewrite batches_app, batches_pushes, app_nil_r. auto.
Qed.

Lemma keeps_update_line (h : Host) (fuel : nat) (line : string) :
  keeps nothing_downloaded (update_line h fuel line).
Proof.
  unfold update_line.
  apply keeps_bind; [apply keeps_requests_only, requests_only_expand_line|].
  intros [[all_tags search_tags] extra_tags].
  apply keeps_bind; [apply keeps_requests_only, requests_only_accumulate|].
  intros pd. destruct (0 <? length pd)%nat; [|apply keeps_ret].
  apply keeps_bind; [apply keeps_filter_loop|]. intros c. apply keeps_ret.
Qed.

Lemma keeps_alias_blacklist (h : Host) (BLACKLIST : list string) :
  keeps nothing_downloaded (alias_blacklist h BLACKLIST).
Proof.
  unfold alias_blacklist.
  apply keeps_bind; [intros g; unfold nothing_downloaded; simpl; auto|]. intros _.
  apply keeps_for_each. intros _ tag.
  apply keeps_bind; [apply keeps_requests_only, requests_only_get_alias|].
  intros alias g. unfold nothing_downloaded. simpl. auto.
Qed.

Lemma keeps_update (h : Host) (fuel : nat) (TAGS : list string) :
  keeps nothing_downloaded (update h fuel TAGS).
Proof.
  unfold update.
  apply keeps_bind; [intros g; unfold nothing_downloaded; simpl; auto|]. intros _.
  apply keeps_map_each. intros line. apply keeps_update_line.
Qed.

(** X12. Up to the end of the update phase the run creates no file, hands
    no batch to the downloader and neither changes nor writes the
    configuration, however that phase ends. When the aliasing of the
    blacklist or the processing of any tag line raises, or a pagination loop
    does not come to an end, [main] ends in the same way at the same point:
    nothing found by the lines already processed is downloaded, and
    [last_run] is not advanced. *)
Theorem no_download_before_every_line_is_done
    (h : Host) (fuel : nat) (TAGS BLACKLIST : list string) (g : Globals) :
  nothing_downloaded g
    (final ((alias_blacklist h BLACKLIST ;;; update h fuel TAGS) g)) /\
  (forall e g',
     (alias_blacklist h BLACKLIST ;;; update h fuel TAGS) g = Raised e g' ->
     main h fuel TAGS BLACKLIST g = Raised e g') /\
  (forall g',
     (alias_blacklist h BLACKLIST ;;; update h fuel TAGS) g = NoFuel g' ->
     main h fuel TAGS BLACKLIST g = NoFuel g').
Proof.
  split; [|split].
  - apply (keeps_bind (alias_blacklist h BLACKLIST) (fun _ => update h fuel TAGS)).
    + apply keeps_alias_blacklist.
    + intros _. apply keeps_update.
  - intros e g'. unfold main, bind.
    destruct (alias_blacklist h BLACKLIST g) as [[] g1|e1 g1|g1]; try discriminate.
    + destruct (update h fuel TAGS g1) as [ss g2|e2 g2|g2]; try discriminate.
      intros Heq. exact Heq.
    + intros Heq. exact Heq.
  - intros g'. unfold main, bind.
    destruct (alias_blacklist h BLACKLIST g) as [[] g1|e1 g1|g1]; try discriminate.
    + destruct (update h fuel TAGS g1) as [ss g2|e2 g2|g2]; try discriminate.
      intros Heq. exact Heq.
    + intros Heq. exact Heq.
Qed.

(** Two tag lines: the first finds and approves three posts of which the
    cache takes the fingerprints, the second cannot be searched. The run
    ends with the transport error of the second line; the three approved
    posts are not downloaded. *)
Lemma approved_but_never_downloaded :
  pushes (trace (final Scenario.second_line_unreachable))
    = ["md5-0"; "md5-1"; "md5-2"] /\
  nothing_downloaded (Mock.globals 2) (final Scenario.second_line_unreachable) /\
  main Mock.three_posts 1 ["cat"; "dog"] [] (Mock.globals 2) =
    Raised (IOError (Mock.page "dog" 1 50)) (final Scenario.second_line_unreachable).
Proof.
  destruct (no_download_before_every_line_is_done
              Mock.three_posts 1 ["cat"; "dog"] [] (Mock.globals 2))
    as (Hkeeps & Hraise & _).
  split; [vm_compute; reflexivity|].
  split; [exact Hkeeps|].
  apply Hraise. vm_compute. reflexivity.
Defined.

(** ** The filter reads tag lists as sets (lines 145 and 150) *)

Lemma is_empty_list_same_elements (xs xs' ys : list string) :
  (forall t, t ∈ xs <-> t ∈ xs') ->
  Py.is_empty_list (Py.set_and xs ys) = Py.is_empty_list (Py.set_and xs' ys).
Proof.
  intros Hsame. apply eq_true_iff_eq.
  rewrite !PyFacts.is_empty_list_set_and.
  split; intros H t Ht; apply H; now apply Hsame.
Qed.

(** X13. The extra tags and the aliased blacklist are turned into sets
    before they are compared with an item's tags: the order of their entries
    and repeated entries change no disposition. A token that occurs twice
    after the first five is queried twice but counts once. *)
Theorem filter_reads_tag_lists_as_sets (h : Host) (g : Globals) (line : string)
    (all_tags extra_tags extra_tags' blacklist' : list string) (item : Post) :
  (forall t, t ∈ extra_tags <-> t ∈ extra_tags') ->
  (forall t, t ∈ ALIASED_BLACKLIST g <-> t ∈ blacklist') ->
  decide_item h g line all_tags extra_tags item =
  decide_item h (set_ALIASED_BLACKLIST blacklist' g) line all_tags extra_tags' item.
Proof.
  intros Hextra Hblack. unfold decide_item. simpl.
  rewrite (is_empty_list_same_elements extra_tags extra_tags' _ Hextra).
  rewrite (is_empty_list_same_elements (ALIASED_BLACKLIST g) blacklist' _ Hblack).
  reflexivity.
Qed.

(** The extra tags [f; g; f] against [g; f], and the blacklist [bad] against
    [bad; bad]: the same disposition. *)
Lemma repeated_tags_count_once :
  decide_item Mock.tagged Mock.blacklisting "a b c d e f g f"
              ["a"; "b"; "c"; "d"; "e"; "f"; "g"; "f"] ["f"; "g"; "f"]
              (Mock.post "a b c d e g" 0) =
  decide_item Mock.tagged (set_ALIASED_BLACKLIST ["bad"; "bad"] Mock.blacklisting)
              "a b c d e f g f"
              ["a"; "b"; "c"; "d"; "e"; "f"; "g"; "f"] ["g"; "f"]
              (Mock.post "a b c d e g" 0).
Proof.
  apply (filter_reads_tag_lists_as_sets Mock.tagged Mock.blacklisting).
  - intros t. rewrite !elem_of_cons, !elem_of_nil. tauto.
  - intros t. simpl. rewrite !elem_of_cons, !elem_of_nil. tauto.
Defined.
